(** * Contract Platform (src/app.py): a shallow embedding and its properties

    The program is a Streamlit script.  Every user interaction runs [main]
    from the top against the persistent [st.session_state]; the widgets that
    a run renders return the values the user gave them.  The embedding keeps
    that shape: a handler is a computation over the session state that
    produces what the page shows, and either returns, raises a Python
    exception, or asks for a rerun ([st.rerun()]). *)

From Stdlib Require Import ZArith String Ascii List Bool Lia.
From Stdlib Require Import PrimFloat FloatOps SpecFloat.
From stdpp Require Import base option list gmap strings pretty.

Open Scope string_scope.
Open Scope list_scope.

(** ** Python values *)

Module Py.

(** The values stored in [contract_data] and interpolated in the prompt:
    [str], [int], [float] and [None]. *)
Inductive value :=
  | VNone
  | VStr (s : string)
  | VInt (n : Z)
  | VFloat (f : float).

(** A raised exception: its class name, [str(e)], and whether it is an
    instance of [Exception] (what [except Exception] tests).  [SystemExit],
    [KeyboardInterrupt] and [GeneratorExit] derive from [BaseException]
    only. *)
Record exc := MakeExc {
  exc_class : string;
  exc_str : string;
  exc_is_exception : bool
}.

(** An instance of a class that derives from [Exception]. *)
Definition Exc (class_name message : string) : exc :=
  MakeExc class_name message true.

(** What a library call gives back: a result or a raised exception. *)
Inductive res (A : Type) :=
  | Ok (a : A)
  | Err (e : exc).
Arguments Ok {A} a.
Arguments Err {A} e.

Definition nl : string := String (ascii_of_nat 10) EmptyString.
Definition dq : string := String (ascii_of_nat 34) EmptyString.

(** *** [str] of a number *)

Definition str_int (n : Z) : string := pretty n.

Fixpoint zeros (n : nat) : string :=
  match n with
  | O => ""
  | S k => String "0" (zeros k)
  end.

Fixpoint drop_zeros (s : string) : string :=
  match s with
  | String "0" r => drop_zeros r
  | _ => s
  end.

(** The digits without their trailing zeros. *)
Definition strip_trailing_zeros (s : string) : string :=
  String.rev (drop_zeros (String.rev s)).

Fixpoint str_take (n : nat) (s : string) : string :=
  match n, s with
  | S k, String c r => String c (str_take k r)
  | _, _ => ""
  end.

Fixpoint str_drop (n : nat) (s : string) : string :=
  match n, s with
  | S k, String _ r => str_drop k r
  | _, _ => s
  end.

(** A binary64 [m * 2^e] is the decimal [num / 10^q] exactly. *)
Definition exact_decimal (m : positive) (e : Z) : Z * Z :=
  if (0 <=? e)%Z then (Z.pos m * 2 ^ e, 0)%Z
  else (Z.pos m * 5 ^ (- e), - e)%Z.

(** The half-width of the interval of reals that round to [m * 2^e], in
    units of [2^e / 4], below the value: halved at the start of a binade. *)
Definition gap_below (m : positive) (e : Z) : Z :=
  if (Z.pos m =? 2 ^ 52)%Z && (-1074 <? e)%Z then 1%Z else 2%Z.

(** Does the decimal [c * 10^k / 10^q] read back as [m * 2^e = num / 10^q]? *)
Definition reads_back (m : positive) (e num c k : Z) : bool :=
  let v := (c * 10 ^ k * 4 * Z.pos m)%Z in
  let lo := (num * (4 * Z.pos m - gap_below m e))%Z in
  let hi := (num * (4 * Z.pos m + 2))%Z in
  if Z.even (Z.pos m) then (lo <=? v)%Z && (v <=? hi)%Z
  else (lo <? v)%Z && (v <? hi)%Z.

(** The shortest digit string that reads back as the float, and its
    decimal point position: the value is [0.digits * 10^decpt].  With [p]
    digits the two candidates are the truncation of the exact expansion and
    its successor; the nearer one that reads back is taken. *)
Fixpoint shortest_from (fuel : nat) (p : Z) (m : positive) (e num q n : Z)
  : string * Z :=
  let k := (n - p)%Z in
  match fuel with
  | O => (strip_trailing_zeros (pretty num), n - q)%Z
  | S fuel' =>
      if (n <=? p)%Z then (strip_trailing_zeros (pretty num), n - q)%Z
      else
        let c := (num / 10 ^ k)%Z in
        let r := (num mod 10 ^ k)%Z in
        let down := reads_back m e num c k in
        let up := reads_back m e num (c + 1) k in
        let pick (d : Z) :=
          (strip_trailing_zeros (pretty d),
           Z.of_nat (String.length (pretty d)) + k - q)%Z in
        let up_nearer :=
          (10 ^ k <? 2 * r)%Z || ((10 ^ k =? 2 * r)%Z && Z.odd c) in
        if down && up then pick (if up_nearer then c + 1 else c)%Z
        else if down then pick c
        else if up then pick (c + 1)%Z
        else shortest_from fuel' (p + 1) m e num q n
  end.

Definition shortest_digits (m : positive) (e : Z) : string * Z :=
  let '(num, q) := exact_decimal m e in
  shortest_from 17 1 m e num q (Z.of_nat (String.length (pretty num))).

(** [repr] of a positive finite float from its shortest digits: positional
    notation when [-4 < decpt <= 16], with [.0] added to a whole number,
    and exponent notation otherwise. *)
Definition format_repr (digits : string) (decpt : Z) : string :=
  let n := Z.of_nat (String.length digits) in
  if (decpt <=? -4)%Z || (16 <? decpt)%Z then
    let x := (decpt - 1)%Z in
    let mant :=
      str_take 1 digits +:+
      (if (1 <? n)%Z then "." +:+ str_drop 1 digits else "") in
    let ex := pretty (Z.abs x) in
    mant +:+ "e" +:+ (if (x <? 0)%Z then "-" else "+") +:+
    (if (Z.abs x <? 10)%Z then "0" +:+ ex else ex)
  else if (decpt <=? 0)%Z then
    "0." +:+ zeros (Z.to_nat (- decpt)) +:+ digits
  else if (decpt <? n)%Z then
    str_take (Z.to_nat decpt) digits +:+ "." +:+
    str_drop (Z.to_nat decpt) digits
  else
    digits +:+ zeros (Z.to_nat (decpt - n)) +:+ ".0".

(** [str(f)] for a float [f] (the same as [repr(f)]). *)
Definition str_float (f : float) : string :=
  match Prim2SF f with
  | S754_nan => "nan"
  | S754_infinity s => if s then "-inf" else "inf"
  | S754_zero s => if s then "-0.0" else "0.0"
  | S754_finite s m e =>
      let '(digits, decpt) := shortest_digits m e in
      (if s then "-" else "") +:+ format_repr digits decpt
  end.

(** [str(v)], which is what an f-string field [{v}] inserts. *)
Definition str (v : value) : string :=
  match v with
  | VNone => "None"
  | VStr s => s
  | VInt n => str_int n
  | VFloat f => str_float f
  end.

(** Truthiness, as [not value] tests it. *)
Definition truthy (v : value) : bool :=
  match v with
  | VNone => false
  | VStr s => negb (String.eqb s "")
  | VInt n => negb (n =? 0)%Z
  | VFloat f => negb (PrimFloat.eqb f 0%float)
  end.

(** [sep.join(parts)]. *)
Definition join (sep : string) (parts : list string) : string :=
  String.concat sep parts.

(** *** Code points

    A [str] is held as its UTF-8 bytes; [len], slices and [strip] work on
    its code points.  A code point is a leading byte and the continuation
    bytes ([10xxxxxx]) that follow it. *)
Definition is_continuation (c : ascii) : bool :=
  let n := nat_of_ascii c in Nat.leb 128 n && Nat.ltb n 192.

(** [len(s)]: the number of code points. *)
Fixpoint len (s : string) : nat :=
  match s with
  | EmptyString => O
  | String c r => if is_continuation c then len r else S (len r)
  end.

(** [s[:n]]: the first [n] code points. *)
Fixpoint slice_to (n : nat) (s : string) : string :=
  match s with
  | EmptyString => EmptyString
  | String c r =>
      if is_continuation c then String c (slice_to n r)
      else match n with
           | O => EmptyString
           | S k => String c (slice_to k r)
           end
  end.

(** [s[n:]]: what is left after the first [n] code points. *)
Fixpoint slice_from (n : nat) (s : string) : string :=
  match s with
  | EmptyString => EmptyString
  | String c r =>
      if is_continuation c then slice_from n r
      else match n with
           | O => s
           | S k => slice_from k r
           end
  end.

(** The code points of a string, each as its bytes. *)
Fixpoint points (s : string) : list string :=
  match s with
  | EmptyString => []
  | String c r =>
      match points r with
      | String c' p :: ps =>
          if is_continuation c' then String c (String c' p) :: ps
          else String c EmptyString :: String c' p :: ps
      | ps => String c EmptyString :: ps
      end
  end.

Fixpoint continuation_bits (acc : N) (s : string) : N :=
  match s with
  | EmptyString => acc
  | String c r => continuation_bits (acc * 64 + (N_of_ascii c - 128)) r
  end.

(** The number of a code point, from its bytes. *)
Definition code_point (p : string) : N :=
  match p with
  | EmptyString => 0
  | String c r =>
      let b := N_of_ascii c in
      continuation_bits
        (if b <? 128 then b
         else if b <? 224 then b - 192
         else if b <? 240 then b - 224
         else b - 240)%N r
  end.

Definition between (lo hi n : N) : bool := ((lo <=? n) && (n <=? hi))%N.

(** [str.isspace] of one code point: the white space of [str.strip()]. *)
Definition is_space_point (n : N) : bool :=
  between 9 13 n || between 28 32 n || (n =? 133)%N || (n =? 160)%N
  || (n =? 5760)%N || between 8192 8202 n || between 8232 8233 n
  || (n =? 8239)%N || (n =? 8287)%N || (n =? 12288)%N.

Fixpoint drop_spaces (ps : list string) : list string :=
  match ps with
  | p :: rest => if is_space_point (code_point p) then drop_spaces rest else ps
  | [] => []
  end.

(** [s.strip()]. *)
Definition strip (s : string) : string :=
  String.concat ""
    (rev (drop_spaces (rev (drop_spaces (points s))))).

(** *** [repr] of a [str], which is [str(KeyError(key))] *)

Definition backslash : string := String (ascii_of_nat 92) EmptyString.
Definition apostrophe : string := "'".

Definition hex_digit (n : N) : string :=
  String (ascii_of_N (if n <? 10 then 48 + n else 87 + n)%N) EmptyString.

Definition hex2 (n : N) : string :=
  hex_digit (n / 16) +:+ hex_digit (n mod 16).

Fixpoint has_byte (c : ascii) (s : string) : bool :=
  match s with
  | EmptyString => false
  | String c' r => Ascii.eqb c c' || has_byte c r
  end.

(** The quote [repr] puts around the text: a double quote when the text
    has an apostrophe and no double quote, an apostrophe otherwise. *)
Definition repr_quote (s : string) : string :=
  if has_byte "'" s && negb (has_byte (ascii_of_nat 34) s) then dq
  else apostrophe.

(** One code point inside [repr].  The quote and the backslash are
    escaped; tab, newline and carriage return have their letter; the other
    control characters and the code points of U+0080 to U+00FF that are
    not printable (U+0080 to U+00A0 and U+00AD) are written in hexadecimal.
    Code points above U+00FF are taken as printable. *)
Definition repr_point (quote p : string) : string :=
  let n := code_point p in
  if String.eqb p quote || String.eqb p backslash then backslash +:+ p
  else if (n =? 9)%N then backslash +:+ "t"
  else if (n =? 10)%N then backslash +:+ "n"
  else if (n =? 13)%N then backslash +:+ "r"
  else if (n <? 32)%N || (n =? 127)%N || between 128 160 n || (n =? 173)%N
       then backslash +:+ "x" +:+ hex2 n
  else p.

Definition repr_str (s : string) : string :=
  let quote := repr_quote s in
  quote +:+ String.concat "" (map (repr_point quote) (points s)) +:+ quote.

End Py.

(** ** What a script run shows, and the session state *)

(** The elements a run puts on the page (and the log lines it writes), in
    order.  Layout containers ([st.columns], [st.spinner], [st.expander])
    show nothing of their own. *)
Inductive ui_event :=
  | Title (s : string)
  | Header (s : string)
  | Subheader (s : string)
  | Write (s : string)
  | Markdown (s : string)
  | Error (s : string)
  | Success (s : string)
  | TextArea (label value : string)
  | DownloadButton (label data file_name mime : string)
  | DisabledButton (label : string)
  | SidebarMarkdown (s : string)
  | SidebarText (s : string)
  | LogError (s : string).

(** [st.session_state]: the three keys the program uses; a key that was
    never assigned is [None]. *)
Record session := Session {
  step : option string;
  contract_data : option (gmap string Py.value);
  processing_status : option Py.value
}.

(** A session that was just created. *)
Definition fresh_session : session :=
  {| step := None; contract_data := None; processing_status := None |}.

Definition with_step (x : string) (s : session) : session :=
  {| step := Some x; contract_data := contract_data s;
     processing_status := processing_status s |}.

Definition with_contract_data (d : gmap string Py.value) (s : session)
  : session :=
  {| step := step s; contract_data := Some d;
     processing_status := processing_status s |}.

Definition with_processing_status (v : Py.value) (s : session) : session :=
  {| step := step s; contract_data := contract_data s;
     processing_status := Some v |}.

(** An uploaded document: its bytes and the MIME type the browser declared. *)
Record UploadedFile := {
  file_bytes : list Byte.byte;
  file_mime : string
}.

(** What the widgets return in one run of the script. *)
Record widgets := {
  upload_btn : bool;
  form_btn : bool;
  back_upload : bool;
  file_uploader : option UploadedFile;
  continue_btn : bool;
  back_form : bool;
  party1 : string;
  party2 : string;
  commodity : string;
  quantity : Z;
  price : float;
  currency : string;
  template : string;
  form_submit_button : bool;
  back_generate : bool
}.

(** ** The monad of handlers *)

(** How a piece of the script ends: it returns, raises, or [st.rerun()]
    stops the run. *)
Inductive outcome (A : Type) :=
  | Ret (a : A)
  | Raise (e : Py.exc)
  | Rerun.
Arguments Ret {A} a.
Arguments Raise {A} e.
Arguments Rerun {A}.

Record result (A : Type) := Result {
  ended : outcome A;
  state : session;
  shown : list ui_event
}.
Arguments Result {A} ended state shown.
Arguments ended {A} r.
Arguments state {A} r.
Arguments shown {A} r.

Definition M (A : Type) : Type := session -> result A.

Definition ret {A} (a : A) : M A := fun s => Result (Ret a) s [].

Definition bind {A B} (m : M A) (k : A -> M B) : M B :=
  fun s =>
    let r := m s in
    match ended r with
    | Ret a =>
        let r' := k a (state r) in
        Result (ended r') (state r') (shown r ++ shown r')
    | Raise e => Result (Raise e) (state r) (shown r)
    | Rerun => Result Rerun (state r) (shown r)
    end.

Declare Scope py_scope.
Delimit Scope py_scope with py.
Notation "x <- m ;; k" := (bind m (fun x => k))
  (at level 100, m at next level, right associativity) : py_scope.
Notation "m ;; k" := (bind m (fun _ => k))
  (at level 100, right associativity) : py_scope.
Open Scope py_scope.

Definition raise {A} (e : Py.exc) : M A := fun s => Result (Raise e) s [].

(** [st.rerun()]: the run stops here and the script is run again. *)
Definition st_rerun {A} : M A := fun s => Result Rerun s [].

(** [try: body except Exception as e: handler(e)].  The handler runs for
    an exception that is an instance of [Exception]; any other exception,
    and a rerun request, pass through. *)
Definition try_except {A} (body : M A) (handler : Py.exc -> M A) : M A :=
  fun s =>
    let r := body s in
    match ended r with
    | Raise e =>
        if Py.exc_is_exception e then
          let r' := handler e (state r) in
          Result (ended r') (state r') (shown r ++ shown r')
        else r
    | _ => r
    end.

(** A library call made from the script. *)
Definition call {A} (r : Py.res A) : M A :=
  match r with
  | Py.Ok a => ret a
  | Py.Err e => raise e
  end.

Definition show (ev : ui_event) : M unit := fun s => Result (Ret tt) s [ev].

Definition when (b : bool) (m : M unit) : M unit := if b then m else ret tt.

Definition attribute_error (name : string) : Py.exc :=
  Py.Exc "AttributeError"
    ("st.session_state has no attribute " +:+ Py.dq +:+ name +:+ Py.dq +:+
     ". Did you forget to initialize it? More info: https://docs.streamlit.io/develop/concepts/architecture/session-state#initialization").

(** Reads and writes of [st.session_state]. *)
Definition get_step : M string :=
  fun s =>
    match step s with
    | Some x => Result (Ret x) s []
    | None => Result (Raise (attribute_error "step")) s []
    end.

Definition set_step (x : string) : M unit :=
  fun s => Result (Ret tt) (with_step x s) [].

Definition get_contract_data : M (gmap string Py.value) :=
  fun s =>
    match contract_data s with
    | Some d => Result (Ret d) s []
    | None => Result (Raise (attribute_error "contract_data")) s []
    end.

Definition set_contract_data (d : gmap string Py.value) : M unit :=
  fun s => Result (Ret tt) (with_contract_data d s) [].

(** [st.session_state.contract_data.get(key, default)]. *)
Definition contract_data_get (key : string) (default : Py.value)
  : M Py.value :=
  d <- get_contract_data ;;
  ret (match d !! key with Some v => v | None => default end).

(** [dict.update(items)]: the items are written in order. *)
Definition dict_update (d : gmap string Py.value)
    (items : list (string * Py.value)) : gmap string Py.value :=
  fold_left (fun acc kv => <[fst kv := snd kv]> acc) items d.

(** ** The libraries and services the script calls *)

(** One request to [chat.completions.create]. *)
Record chat_request := {
  model : string;
  messages : list (string * string);
  max_tokens : Z;
  temperature : float
}.

(** The world outside the script.  [pdf_pages b] is [PdfReader(b).pages]
    with [extract_text()] taken of each page; [docx_paragraphs b] is the
    text of each paragraph of [Document(b)]; a response is the [content] of
    the message of each of its choices. *)
Record Runtime := {
  pdf_pages : list Byte.byte -> Py.res (list (Py.res string));
  docx_paragraphs : list Byte.byte -> Py.res (list string);
  decode_utf8 : list Byte.byte -> Py.res string;
  completions_create : chat_request -> Py.res (list (option string));
  now_stamp : string
}.

(** The names bound at module level when a handler runs: the imports, the
    logger, the class and [main]. *)
Definition module_globals : list string :=
  [ "st"; "os"; "json"; "io"; "Document"; "PdfReader"; "openai";
    "load_dotenv"; "Optional"; "Dict"; "Any"; "logging"; "datetime";
    "logger"; "ContractPlatform"; "main" ].

(** Reading a global name: a name that is not bound raises [NameError]. *)
Definition load_global (globals : list string) (name : string) : M unit :=
  if bool_decide (name ∈ globals) then ret tt
  else raise (Py.Exc "NameError" ("name '" +:+ name +:+ "' is not defined")).

(** [str.strip()] is [Py.strip]. *)
Definition strip (s : string) : string := Py.strip s.

(** ** [class ContractPlatform] *)

(** [__init__]: each key is given its first value only when absent. *)
Definition init : M unit :=
  fun s =>
    let s1 := match step s with None => with_step "home" s | Some _ => s end in
    let s2 :=
      match contract_data s1 with
      | None => with_contract_data ∅ s1
      | Some _ => s1
      end in
    let s3 :=
      match processing_status s2 with
      | None => with_processing_status Py.VNone s2
      | Some _ => s2
      end in
    Result (Ret tt) s3 [].

(** The body of the loop of [extract_text_from_pdf]:
    [text += page.extract_text() + "\n"] for each page in turn. *)
Fixpoint add_pages (pages : list (Py.res string)) (text : string)
  : Py.res string :=
  match pages with
  | [] => Py.Ok text
  | page :: rest =>
      match page with
      | Py.Ok t => add_pages rest (text +:+ (t +:+ Py.nl))
      | Py.Err e => Py.Err e
      end
  end.

Definition supported_docx : list string :=
  [ "application/msword";
    "application/vnd.openxmlformats-officedocument.wordprocessingml.document" ].

(** The table of required fields and their labels in [application_form]. *)
Definition required_fields : list (string * string) :=
  [ ("party1", "Party 1 Name");
    ("party2", "Party 2 Name");
    ("commodity", "Commodity Description");
    ("quantity", "Quantity");
    ("price", "Price per unit") ].

(** [table[key]] on a dict with string values; for a missing key the
    [KeyError] holds the key, and its [str] is the [repr] of the key. *)
Fixpoint getitem (table : list (string * string)) (key : string)
  : Py.res string :=
  match table with
  | [] => Py.Err (Py.Exc "KeyError" (Py.repr_str key))
  | (k, v) :: rest => if String.eqb key k then Py.Ok v else getitem rest key
  end.

(** [key in table]. *)
Definition has_key (table : list (string * string)) (key : string) : bool :=
  existsb (fun kv => String.eqb key (fst kv)) table.

Fixpoint map_res {A B} (f : A -> Py.res B) (l : list A) : Py.res (list B) :=
  match l with
  | [] => Py.Ok []
  | a :: rest =>
      match f a with
      | Py.Err e => Py.Err e
      | Py.Ok b =>
          match map_res f rest with
          | Py.Err e => Py.Err e
          | Py.Ok bs => Py.Ok (b :: bs)
          end
      end
  end.

(** The dict [form_data] built on submit, in the order it is written. *)
Definition form_data (w : widgets) : list (string * Py.value) :=
  [ ("party1", Py.VStr (party1 w));
    ("party2", Py.VStr (party2 w));
    ("commodity", Py.VStr (commodity w));
    ("quantity", Py.VInt (quantity w));
    ("price", Py.VFloat (price w));
    ("currency", Py.VStr (currency w));
    ("template", Py.VStr (template w)) ].

(** [[field for field, value in form_data.items()
      if field in required_fields and not value]]. *)
Definition missing_fields (data : list (string * Py.value)) : list string :=
  map fst
    (List.filter (fun kv => has_key required_fields (fst kv)
                       && negb (Py.truthy (snd kv))) data).

Definition form_error_prefix : string :=
  "Please fill in all required fields: ".

(** The f-string of [generate_contract], line by line: the literal opens
    with a newline, every line carries the sixteen blanks of the source's
    indentation, and the closing quotes stand on a line of their own. *)
Definition indent : string := "                ".

Definition dget (d : gmap string Py.value) (key : string) : Py.value :=
  match d !! key with Some v => v | None => Py.VNone end.

Definition prompt_lines (d : gmap string Py.value) : list string :=
  [ "Generate a legal contract based on the following information:";
    "";
    "PARTIES:";
    "- Party 1: " +:+ Py.str (dget d "party1");
    "- Party 2: " +:+ Py.str (dget d "party2");
    "";
    "TERMS:";
    "- Commodity: " +:+ Py.str (dget d "commodity");
    "- Quantity: " +:+ Py.str (dget d "quantity");
    "- Price: " +:+ Py.str (dget d "price") +:+ " " +:+
      Py.str (dget d "currency") +:+ " per unit";
    "- Template Style: " +:+ Py.str (dget d "template");
    "";
    "Please generate a complete, professionally formatted, and legally binding contract.";
    "Include standard clauses for dispute resolution, termination, and force majeure.";
    "" ].

Definition build_prompt (d : gmap string Py.value) : string :=
  Py.nl +:+ Py.join Py.nl (map (fun l => indent +:+ l) (prompt_lines d)).

Definition system_message : string :=
  "You are a legal document generator specializing in commercial contracts.".

Definition generic_error : string :=
  "An error occurred while generating the contract. Please try again or contact support.".

(** [response.choices[0].message.content.strip()]. *)
Definition first_content (choices : list (option string)) : Py.res string :=
  match choices with
  | [] => Py.Err (Py.Exc "IndexError" "list index out of range")
  | None :: _ =>
      Py.Err (Py.Exc "AttributeError"
                "'NoneType' object has no attribute 'strip'")
  | Some text :: _ => Py.Ok (strip text)
  end.

Section Platform.

Variable rt : Runtime.
(** The names bound at module level when [generate_contract] runs. *)
Variable globals : list string.

Definition extract_text_from_pdf (file_contents : list Byte.byte)
  : M string :=
  try_except
    (pages <- call (pdf_pages rt file_contents) ;;
     call (add_pages pages ""))
    (fun e =>
       show (LogError ("Error extracting PDF text: " +:+ Py.exc_str e)) ;;
       raise (Py.Exc "Exception"
         "Failed to process PDF file. Please ensure the file is not corrupted.")).

Definition extract_text_from_docx (file_contents : list Byte.byte)
  : M string :=
  try_except
    (paragraphs <- call (docx_paragraphs rt file_contents) ;;
     ret (Py.join Py.nl paragraphs))
    (fun e =>
       show (LogError ("Error extracting DOCX text: " +:+ Py.exc_str e)) ;;
       raise (Py.Exc "Exception"
         "Failed to process DOCX file. Please ensure the file is not corrupted.")).

Definition process_uploaded_file (uploaded_file : UploadedFile)
  : M (option string) :=
  try_except
    (let file_contents := file_bytes uploaded_file in
     let file_type := file_mime uploaded_file in
     if String.eqb file_type "application/pdf" then
       text <- extract_text_from_pdf file_contents ;; ret (Some text)
     else if bool_decide (file_type ∈ supported_docx) then
       text <- extract_text_from_docx file_contents ;; ret (Some text)
     else if String.eqb file_type "text/plain" then
       text <- call (decode_utf8 rt file_contents) ;; ret (Some text)
     else
       raise (Py.Exc "ValueError" ("Unsupported file type: " +:+ file_type)))
    (fun e =>
       show (Error ("Error processing file: " +:+ Py.exc_str e)) ;;
       ret None).

Definition home (w : widgets) : M unit :=
  show (Title "Contract Platform") ;;
  show (Write
    "Welcome to the Contract Platform. Choose an option to get started.") ;;
  when (upload_btn w) (set_step "upload") ;;
  when (form_btn w) (set_step "form").

(** The preview of [upload_documents]:
    [text[:1000] + "..." if len(text) > 1000 else text]. *)
Definition preview (extracted_text : string) : string :=
  if Nat.ltb 1000 (Py.len extracted_text)
  then Py.slice_to 1000 extracted_text +:+ "..."
  else extracted_text.

Definition upload_documents (w : widgets) : M unit :=
  show (Header "Upload Documents") ;;
  when (back_upload w) (set_step "home" ;; st_rerun) ;;
  match file_uploader w with
  | None => ret tt
  | Some uploaded_file =>
      extracted_text <- process_uploaded_file uploaded_file ;;
      match extracted_text with
      | None => ret tt
      | Some text =>
          when (negb (String.eqb text ""))
            (d <- get_contract_data ;;
             set_contract_data (<["extracted_text" := Py.VStr text]> d) ;;
             show (Success "File processed successfully!") ;;
             show (TextArea "Extracted Content" (preview text)) ;;
             when (continue_btn w) (set_step "form" ;; st_rerun))
      end
  end.

Definition application_form (w : widgets) : M unit :=
  show (Header "Contract Application Form") ;;
  when (back_form w) (set_step "home" ;; st_rerun) ;;
  show (Subheader "1. Parties Involved") ;;
  contract_data_get "party1" (Py.VStr "") ;;
  contract_data_get "party2" (Py.VStr "") ;;
  show (Subheader "2. Contract Details") ;;
  contract_data_get "commodity" (Py.VStr "") ;;
  contract_data_get "quantity" (Py.VInt 0) ;;
  contract_data_get "price" (Py.VFloat 0%float) ;;
  show (Subheader "3. Additional Terms") ;;
  when (form_submit_button w)
    (let data := form_data w in
     let missing := missing_fields data in
     form_valid <-
       match missing with
       | _ :: _ =>
           labels <- call (map_res (getitem required_fields) missing) ;;
           show (Error (form_error_prefix +:+ Py.join ", " labels)) ;;
           ret false
       | [] => ret true
       end ;;
     when form_valid
       (d <- get_contract_data ;;
        set_contract_data (dict_update d data) ;;
        set_step "generate" ;;
        st_rerun)).

(** The [try] block of [generate_contract]. *)
Definition generate_body : M unit :=
  d <- get_contract_data ;;
  let prompt := build_prompt d in
  load_global globals "client" ;;
  response <- call (completions_create rt
    {| model := "gpt-4";
       messages := [ ("system", system_message); ("user", prompt) ];
       max_tokens := 2000;
       temperature := 0x1.6666666666666p-1%float |}) ;;
  contract_text <- call (first_content response) ;;
  show (Markdown "### Generated Contract") ;;
  show (TextArea "Contract Content" contract_text) ;;
  show (DownloadButton "📥 Download as TXT" contract_text
          ("contract_" +:+ now_stamp rt +:+ ".txt") "text/plain") ;;
  show (DisabledButton "📥 Download as PDF (Coming Soon)").

Definition generate_contract (w : widgets) : M unit :=
  show (Header "Generate Contract") ;;
  when (back_generate w) (set_step "form" ;; st_rerun) ;;
  try_except generate_body
    (fun e =>
       show (LogError ("Error generating contract: " +:+ Py.exc_str e)) ;;
       show (Error generic_error)).

(** The breadcrumb table of [main]. *)
Definition steps : list (string * string) :=
  [ ("home", "🏠 Home");
    ("upload", "📄 Upload");
    ("form", "📝 Form");
    ("generate", "⚙️ Generate") ].

Definition main (w : widgets) : M unit :=
  init ;;
  show (SidebarMarkdown "### Navigation") ;;
  current <- get_step ;;
  label <- call (getitem steps current) ;;
  show (SidebarText ("Current Step: " +:+ label)) ;;
  current <- get_step ;;
  if String.eqb current "home" then home w
  else if String.eqb current "upload" then upload_documents w
  else if String.eqb current "form" then application_form w
  else if String.eqb current "generate" then generate_contract w
  else ret tt.

End Platform.

(** The script as deployed: [main] under the module's own globals. *)
Definition app (rt : Runtime) (w : widgets) : M unit :=
  main rt module_globals w.

(** The widgets of a run that no click started: every button is [False]. *)
Definition no_click (w : widgets) : widgets :=
  {| upload_btn := false; form_btn := false;
     back_upload := false; file_uploader := file_uploader w;
     continue_btn := false;
     back_form := false;
     party1 := party1 w; party2 := party2 w; commodity := commodity w;
     quantity := quantity w; price := price w;
     currency := currency w; template := template w;
     form_submit_button := false;
     back_generate := false |}.

(** One user action: the run it starts, and, while a run ends in
    [st.rerun()], another run in which no button is clicked. *)
Fixpoint interact (fuel : nat) (rt : Runtime) (w : widgets) (s : session)
  : option (result unit) :=
  match fuel with
  | O => None
  | S fuel' =>
      let r := app rt w s in
      match ended r with
      | Rerun => interact fuel' rt (no_click w) (state r)
      | _ => Some r
      end
  end.

(** The session states a session can be in between two runs: the fresh
    one, and the one any run leaves behind, whatever the widgets returned
    and whatever the libraries did. *)
Inductive reachable : session -> Prop :=
  | reach_fresh : reachable fresh_session
  | reach_run rt w s :
      reachable s -> reachable (state (app rt w s)).

(** The four values of [step]. *)
Definition step_names : list string := [ "home"; "upload"; "form"; "generate" ].

Definition valid_step (s : session) : Prop :=
  exists x, step s = Some x /\ In x step_names.

(** ** Substrings *)

(** [sub in s] for strings. *)
Definition substring_of (sub s : string) : Prop :=
  exists pre post, s = pre +:+ (sub +:+ post).

Fixpoint strip_prefix (p s : string) : option string :=
  match p, s with
  | EmptyString, _ => Some s
  | String a p', String b s' =>
      if Ascii.eqb a b then strip_prefix p' s' else None
  | String _ _, EmptyString => None
  end.

(** The text before and after the first occurrence of [sub] in [s]. *)
Fixpoint split_on (sub s : string) : option (string * string) :=
  match strip_prefix sub s with
  | Some post => Some ("", post)
  | None =>
      match s with
      | EmptyString => None
      | String c r =>
          match split_on sub r with
          | Some (pre, post) => Some (String c pre, post)
          | None => None
          end
      end
  end.
(** * Properties *)

Arguments Py.truthy : simpl never.

(** ** Form submission *)

(** The keys [missing_fields] finds in the submitted form, field by field. *)
Definition if_falsy {A} (v : Py.value) (x : A) : list A :=
  if Py.truthy v then [] else [x].

Lemma missing_fields_form_data (w : widgets) :
  missing_fields (form_data w) =
    if_falsy (Py.VStr (party1 w)) "party1" ++
    if_falsy (Py.VStr (party2 w)) "party2" ++
    if_falsy (Py.VStr (commodity w)) "commodity" ++
    if_falsy (Py.VInt (quantity w)) "quantity" ++
    if_falsy (Py.VFloat (price w)) "price".
Proof.
  unfold missing_fields, form_data, if_falsy. cbn.
  destruct (Py.truthy (Py.VStr (party1 w))),
           (Py.truthy (Py.VStr (party2 w))),
           (Py.truthy (Py.VStr (commodity w))),
           (Py.truthy (Py.VInt (quantity w))),
           (Py.truthy (Py.VFloat (price w))); reflexivity.
Qed.

Lemma application_form_accepts (w : widgets) (s : session) d :
  contract_data s = Some d ->
  back_form w = false ->
  form_submit_button w = true ->
  missing_fields (form_data w) = [] ->
  application_form w s =
    Result Rerun
      (with_step "generate"
         (with_contract_data (dict_update d (form_data w)) s))
      [ Header "Contract Application Form";
        Subheader "1. Parties Involved";
        Subheader "2. Contract Details";
        Subheader "3. Additional Terms" ].
Proof.
  intros Hd Hb Hs Hm. unfold application_form. rewrite Hb, Hs, Hm.
  destruct s as [st cd ps]. cbn in Hd. subst cd. reflexivity.
Qed.

Lemma lookup_dict_update_form (w : widgets) (d : gmap string Py.value) k :
  dict_update d (form_data w) !! k =
    if decide (k = "template") then Some (Py.VStr (template w))
    else if decide (k = "currency") then Some (Py.VStr (currency w))
    else if decide (k = "price") then Some (Py.VFloat (price w))
    else if decide (k = "quantity") then Some (Py.VInt (quantity w))
    else if decide (k = "commodity") then Some (Py.VStr (commodity w))
    else if decide (k = "party2") then Some (Py.VStr (party2 w))
    else if decide (k = "party1") then Some (Py.VStr (party1 w))
    else d !! k.
Proof.
  unfold dict_update, form_data. cbn [fold_left fst snd].
  repeat (case_decide; [subst k; simplify_map_eq; reflexivity | rewrite lookup_insert_ne by congruence]).
  reflexivity.
Qed.

(** The labels the claim expects in the message: those of the required
    fields whose submitted value is falsy, in the order of the form. *)
Definition expected_missing_labels (w : widgets) : list string :=
  if_falsy (Py.VStr (party1 w)) "Party 1 Name" ++
  if_falsy (Py.VStr (party2 w)) "Party 2 Name" ++
  if_falsy (Py.VStr (commodity w)) "Commodity Description" ++
  if_falsy (Py.VInt (quantity w)) "Quantity" ++
  if_falsy (Py.VFloat (price w)) "Price per unit".

(** C1. A submission of the form (the submit button is the one clicked) in
    which party1, party2, commodity, quantity and price are all truthy
    writes the seven submitted values into [contract_data], keeps every
    other key of it, sets [step] to ['generate'] and asks for a rerun. *)
Theorem form_submission_accepted (w : widgets) (s : session)
    (d : gmap string Py.value) :
  contract_data s = Some d ->
  back_form w = false ->
  form_submit_button w = true ->
  Py.truthy (Py.VStr (party1 w)) = true ->
  Py.truthy (Py.VStr (party2 w)) = true ->
  Py.truthy (Py.VStr (commodity w)) = true ->
  Py.truthy (Py.VInt (quantity w)) = true ->
  Py.truthy (Py.VFloat (price w)) = true ->
  let r := application_form w s in
  ended r = Rerun /\
  step (state r) = Some "generate" /\
  exists d', contract_data (state r) = Some d' /\
    d' !! "party1" = Some (Py.VStr (party1 w)) /\
    d' !! "party2" = Some (Py.VStr (party2 w)) /\
    d' !! "commodity" = Some (Py.VStr (commodity w)) /\
    d' !! "quantity" = Some (Py.VInt (quantity w)) /\
    d' !! "price" = Some (Py.VFloat (price w)) /\
    d' !! "currency" = Some (Py.VStr (currency w)) /\
    d' !! "template" = Some (Py.VStr (template w)) /\
    forall k, ~ In k (map fst (form_data w)) -> d' !! k = d !! k.
Proof.
  intros Hd Hb Hs H1 H2 H3 H4 H5 r.
  assert (Hm : missing_fields (form_data w) = []).
  { rewrite missing_fields_form_data. unfold if_falsy.
    rewrite H1, H2, H3, H4, H5. reflexivity. }
  subst r. rewrite (application_form_accepts w s d Hd Hb Hs Hm).
  cbn [ended state step contract_data with_step with_contract_data].
  split; [reflexivity|]. split; [reflexivity|].
  exists (dict_update d (form_data w)). split; [reflexivity|].
  repeat split; try (rewrite lookup_dict_update_form; reflexivity).
  intros k Hk. rewrite lookup_dict_update_form.
  cbn in Hk.
  repeat (case_decide; [exfalso; apply Hk; subst k; tauto|]).
  reflexivity.
Qed.

Lemma form_submission_accepted_witness :
  let w := {| upload_btn := false; form_btn := false; back_upload := false;
              file_uploader := None; continue_btn := false;
              back_form := false;
              party1 := "Acme"; party2 := "Globex"; commodity := "Wheat";
              quantity := 100; price := 5%float;
              currency := "USD"; template := "London";
              form_submit_button := true; back_generate := false |} in
  let s := {| step := Some "form"; contract_data := Some ∅;
              processing_status := Some Py.VNone |} in
  ended (application_form w s) = Rerun /\
  step (state (application_form w s)) = Some "generate".
Proof.
  intros w s.
  pose proof (form_submission_accepted w s ∅ eq_refl eq_refl eq_refl
                eq_refl eq_refl eq_refl eq_refl eq_refl) as H.
  split; [exact (proj1 H) | exact (proj1 (proj2 H))].
Defined.

(** C2. A submission of the form in which at least one of party1, party2,
    commodity, quantity and price is falsy returns without a rerun, leaves
    the whole session state (so [step] and [contract_data]) as it was, and
    shows one error: the fixed prefix followed by the labels of exactly the
    falsy required fields, separated by a comma and a blank. *)
Theorem form_submission_rejected (w : widgets) (s : session)
    (d : gmap string Py.value) :
  contract_data s = Some d ->
  back_form w = false ->
  form_submit_button w = true ->
  Py.truthy (Py.VStr (party1 w)) = false \/
  Py.truthy (Py.VStr (party2 w)) = false \/
  Py.truthy (Py.VStr (commodity w)) = false \/
  Py.truthy (Py.VInt (quantity w)) = false \/
  Py.truthy (Py.VFloat (price w)) = false ->
  let r := application_form w s in
  ended r = Ret tt /\
  state r = s /\
  shown r =
    [ Header "Contract Application Form";
      Subheader "1. Parties Involved";
      Subheader "2. Contract Details";
      Subheader "3. Additional Terms";
      Error ("Please fill in all required fields: " +:+
             Py.join ", " (expected_missing_labels w)) ].
Proof.
  intros Hd Hb Hs Hfalsy r. subst r.
  unfold application_form, expected_missing_labels.
  rewrite Hb, Hs, missing_fields_form_data. unfold if_falsy.
  destruct s as [st cd ps]. cbn in Hd. subst cd.
  destruct (Py.truthy (Py.VStr (party1 w))),
           (Py.truthy (Py.VStr (party2 w))),
           (Py.truthy (Py.VStr (commodity w))),
           (Py.truthy (Py.VInt (quantity w))),
           (Py.truthy (Py.VFloat (price w)));
    try (repeat split; reflexivity).
  exfalso. intuition discriminate.
Qed.

Lemma form_submission_rejected_witness :
  let w := {| upload_btn := false; form_btn := false; back_upload := false;
              file_uploader := None; continue_btn := false;
              back_form := false;
              party1 := "Acme"; party2 := ""; commodity := "Wheat";
              quantity := 0; price := 5%float;
              currency := "USD"; template := "London";
              form_submit_button := true; back_generate := false |} in
  let s := {| step := Some "form"; contract_data := Some ∅;
              processing_status := Some Py.VNone |} in
  state (application_form w s) = s /\
  shown (application_form w s) =
    [ Header "Contract Application Form";
      Subheader "1. Parties Involved";
      Subheader "2. Contract Details";
      Subheader "3. Additional Terms";
      Error "Please fill in all required fields: Party 2 Name, Quantity" ].
Proof.
  intros w s.
  pose proof (form_submission_rejected w s ∅ eq_refl eq_refl eq_refl
                (or_intror (or_introl eq_refl))) as H.
  split; [exact (proj1 (proj2 H)) | exact (proj2 (proj2 H))].
Defined.

(** ** Concrete inputs on which the script is run below *)

Module Samples.

(** A runtime whose documents parse and whose completion service is down. *)
Definition runtime : Runtime :=
  {| pdf_pages := fun _ => Py.Ok [Py.Ok "a"];
     docx_paragraphs := fun _ => Py.Ok ["p"; "q"];
     decode_utf8 := fun b => Py.Ok (string_of_list_byte b);
     completions_create :=
       fun _ => Py.Err (Py.Exc "APIConnectionError" "Connection error.");
     now_stamp := "20240101_120000" |}.

(** A run in which nothing is clicked and the form is empty. *)
Definition idle : widgets :=
  {| upload_btn := false; form_btn := false; back_upload := false;
     file_uploader := None; continue_btn := false;
     back_form := false;
     party1 := ""; party2 := ""; commodity := "";
     quantity := 0; price := 0%float;
     currency := "USD"; template := "London";
     form_submit_button := false; back_generate := false |}.

Definition click_back_generate : widgets :=
  {| upload_btn := false; form_btn := false; back_upload := false;
     file_uploader := None; continue_btn := false;
     back_form := false;
     party1 := ""; party2 := ""; commodity := "";
     quantity := 0; price := 0%float;
     currency := "USD"; template := "London";
     form_submit_button := false; back_generate := true |}.

(** The session of the claim about the prompt, on the generate page. *)
Definition acme_data : gmap string Py.value :=
  <["party1" := Py.VStr "Acme"]>
  (<["party2" := Py.VStr "Globex"]>
  (<["commodity" := Py.VStr "Wheat"]>
  (<["quantity" := Py.VInt 100]>
  (<["price" := Py.VFloat 5%float]> ∅)))).

(** A plain-text upload, and a runtime that decodes any upload to a text
    of 1001 characters. *)
Definition hello_file : UploadedFile :=
  {| file_bytes := [Byte.x68; Byte.x65; Byte.x6c; Byte.x6c; Byte.x6f];
     file_mime := "text/plain" |}.

Definition upload_hello : widgets :=
  {| upload_btn := false; form_btn := false; back_upload := false;
     file_uploader := Some hello_file; continue_btn := false;
     back_form := false;
     party1 := ""; party2 := ""; commodity := "";
     quantity := 0; price := 0%float;
     currency := "USD"; template := "London";
     form_submit_button := false; back_generate := false |}.

Definition long_text : string := String.concat "" (repeat "x" 1001).

Definition long_text_runtime : Runtime :=
  {| pdf_pages := fun _ => Py.Ok [Py.Ok "a"];
     docx_paragraphs := fun _ => Py.Ok ["p"; "q"];
     decode_utf8 := fun _ => Py.Ok long_text;
     completions_create :=
       fun _ => Py.Err (Py.Exc "APIConnectionError" "Connection error.");
     now_stamp := "20240101_120000" |}.

Definition at_upload : session :=
  {| step := Some "upload"; contract_data := Some ∅;
     processing_status := Some Py.VNone |}.

(** An exception that is not an instance of [Exception], and a runtime in
    which every library call is interrupted by it. *)
Definition keyboard_interrupt : Py.exc :=
  Py.MakeExc "KeyboardInterrupt" "" false.

Definition interrupted : Runtime :=
  {| pdf_pages := fun _ => Py.Err keyboard_interrupt;
     docx_paragraphs := fun _ => Py.Err keyboard_interrupt;
     decode_utf8 := fun _ => Py.Err keyboard_interrupt;
     completions_create := fun _ => Py.Err keyboard_interrupt;
     now_stamp := "20240101_120000" |}.

Definition at_generate : session :=
  {| step := Some "generate"; contract_data := Some acme_data;
     processing_status := Some Py.VNone |}.

End Samples.

(** ** Contract generation *)

Lemma client_is_unbound : bool_decide ("client" ∈ module_globals) = false.
Proof. reflexivity. Qed.

(** The [try] block never writes to the session state. *)
Lemma generate_body_state rt globals (s : session) :
  state (generate_body rt globals s) = s.
Proof.
  unfold generate_body, load_global.
  destruct s as [st [d|] ps]; [|reflexivity].
  destruct (bool_decide ("client" ∈ globals)); [|reflexivity].
  cbn. destruct (completions_create rt _) as [choices|e]; [|reflexivity].
  cbn. destruct (first_content choices); reflexivity.
Qed.

(** Under the module's own globals the [try] block raises before it shows
    anything: [NameError] once [contract_data] exists. *)
Lemma generate_body_raises rt (s : session) :
  exists e, generate_body rt module_globals s = Result (Raise e) s [] /\
    Py.exc_is_exception e = true /\
    (contract_data s <> None ->
     e = Py.Exc "NameError" "name 'client' is not defined").
Proof.
  unfold generate_body, load_global. rewrite client_is_unbound.
  destruct s as [st [d|] ps]; eexists;
    (split; [reflexivity|]); (split; [reflexivity|]).
  - reflexivity.
  - intros H. cbn in H. congruence.
Qed.

(** When the [try] block raises, it has shown nothing yet. *)
Lemma generate_body_raise_shows_nothing rt globals (s : session) e :
  ended (generate_body rt globals s) = Raise e ->
  shown (generate_body rt globals s) = [].
Proof.
  unfold generate_body, load_global.
  destruct s as [st [d|] ps]; [|reflexivity].
  destruct (bool_decide ("client" ∈ globals)); [|reflexivity].
  cbn. destruct (completions_create rt _) as [choices|e']; [|reflexivity].
  cbn. destruct (first_content choices); [discriminate | reflexivity].
Qed.

Lemma generate_contract_caught rt globals (w : widgets) (s : session) e :
  back_generate w = false ->
  ended (generate_body rt globals s) = Raise e ->
  Py.exc_is_exception e = true ->
  generate_contract rt globals w s =
    Result (Ret tt) s
      ([Header "Generate Contract"] ++ shown (generate_body rt globals s) ++
       [ LogError ("Error generating contract: " +:+ Py.exc_str e);
         Error generic_error ]).
Proof.
  intros Hb He Hx. pose proof (generate_body_state rt globals s) as Hst.
  unfold generate_contract, try_except, bind at 1 2. rewrite Hb. cbn.
  rewrite He, Hx. cbn. rewrite Hst. reflexivity.
Qed.

Lemma generate_contract_escapes rt globals (w : widgets) (s : session) e :
  back_generate w = false ->
  ended (generate_body rt globals s) = Raise e ->
  Py.exc_is_exception e = false ->
  generate_contract rt globals w s =
    Result (Raise e) s [Header "Generate Contract"].
Proof.
  intros Hb He Hx. pose proof (generate_body_state rt globals s) as Hst.
  pose proof (generate_body_raise_shows_nothing rt globals s e He) as Hsh.
  unfold generate_contract, try_except, bind at 1 2. rewrite Hb. cbn.
  rewrite He, Hx. cbn. rewrite He, Hst, Hsh. reflexivity.
Qed.

Lemma generate_contract_back rt globals (w : widgets) (s : session) :
  back_generate w = true ->
  generate_contract rt globals w s =
    Result Rerun (with_step "form" s) [Header "Generate Contract"].
Proof. intros Hb. unfold generate_contract. rewrite Hb. reflexivity. Qed.

(** What the success path of [generate_contract] puts on the page. *)
Definition is_success_output (ev : ui_event) : bool :=
  match ev with
  | Markdown _ | TextArea _ _ | DownloadButton _ _ _ _ | DisabledButton _ =>
      true
  | _ => false
  end.

(** C3 (as amended). Under the module's own globals, whatever the session
    state and the libraries: no invocation of [generate_contract] shows
    anything of the success path; and every invocation in which the back
    button is not clicked ends in the [except] branch, returning normally
    with the session state untouched after logging the exception and
    showing the generic error.  The exception is the [NameError] of the
    unbound name [client] whenever [contract_data] exists. *)
Theorem generate_contract_never_succeeds rt (w : widgets) (s : session) :
  let r := generate_contract rt module_globals w s in
  existsb is_success_output (shown r) = false /\
  (back_generate w = false ->
   exists e,
     ended (generate_body rt module_globals s) = Raise e /\
     (contract_data s <> None ->
      e = Py.Exc "NameError" "name 'client' is not defined") /\
     ended r = Ret tt /\
     state r = s /\
     shown r =
       [ Header "Generate Contract";
         LogError ("Error generating contract: " +:+ Py.exc_str e);
         Error generic_error ]).
Proof.
  intros r. subst r.
  destruct (generate_body_raises rt s) as (e & Hbody & Hx & Hname).
  assert (He : ended (generate_body rt module_globals s) = Raise e)
    by (rewrite Hbody; reflexivity).
  destruct (back_generate w) eqn:Hb.
  - rewrite (generate_contract_back _ _ _ _ Hb).
    split; [reflexivity | discriminate].
  - rewrite (generate_contract_caught _ _ _ _ _ Hb He Hx), Hbody.
    split; [reflexivity|]. intros _. exists e. repeat split; assumption.
Qed.

Lemma generate_contract_never_succeeds_witness :
  shown (generate_contract Samples.runtime module_globals Samples.idle
           Samples.at_generate) =
    [ Header "Generate Contract";
      LogError "Error generating contract: name 'client' is not defined";
      Error generic_error ].
Proof.
  destruct (proj2 (generate_contract_never_succeeds Samples.runtime
                     Samples.idle Samples.at_generate) eq_refl)
    as (e & _ & Hname & _ & _ & Hshown).
  rewrite Hshown, (Hname ltac:(discriminate)). reflexivity.
Defined.

(** C3 as stated fails: when the back button is the one clicked, the
    invocation sets [step] to ['form'] and reruns before the [try] block;
    the [except] branch is not taken and no error is shown. *)
Lemma generate_contract_back_click_shows_no_error :
  generate_contract Samples.runtime module_globals
    Samples.click_back_generate Samples.at_generate =
    Result Rerun (with_step "form" Samples.at_generate)
      [Header "Generate Contract"] /\
  ~ In (Error generic_error)
      (shown (generate_contract Samples.runtime module_globals
                Samples.click_back_generate Samples.at_generate)).
Proof.
  split; [reflexivity|].
  cbn. intros [H|[]]. discriminate H.
Qed.

(** C8 (as amended). Whatever is bound at module level and whatever the
    libraries do: when the [try] block of [generate_contract] raises (the
    API call included), the session state is left as it was (so [step]
    stays ['generate'] and [contract_data] is unchanged).  If the exception
    is an instance of [Exception], the handler catches it: it returns
    normally, logs the exception and shows the generic error last.  If it
    is not ([KeyboardInterrupt], [SystemExit]), [except Exception] does not
    catch it: it propagates out of the handler and no error is shown. *)
Theorem generation_failure_is_caught rt globals (w : widgets) (s : session)
    (e : Py.exc) :
  back_generate w = false ->
  ended (generate_body rt globals s) = Raise e ->
  let r := generate_contract rt globals w s in
  state r = s /\
  step (state r) = step s /\
  contract_data (state r) = contract_data s /\
  (Py.exc_is_exception e = true ->
   ended r = Ret tt /\
   In (LogError ("Error generating contract: " +:+ Py.exc_str e)) (shown r) /\
   last (shown r) = Some (Error generic_error)) /\
  (Py.exc_is_exception e = false ->
   ended r = Raise e /\ shown r = [Header "Generate Contract"]).
Proof.
  intros Hb He r. subst r.
  destruct (Py.exc_is_exception e) eqn:Hx.
  - rewrite (generate_contract_caught _ _ _ _ _ Hb He Hx).
    cbn [ended state shown].
    repeat split; try discriminate.
    + apply in_or_app. right. apply in_or_app. right. left. reflexivity.
    + rewrite app_assoc.
      change [LogError ("Error generating contract: " +:+ Py.exc_str e);
              Error generic_error]
        with ([LogError ("Error generating contract: " +:+ Py.exc_str e)] ++
              [Error generic_error]).
      rewrite app_assoc. apply last_snoc.
  - rewrite (generate_contract_escapes _ _ _ _ _ Hb He Hx).
    cbn [ended state shown]. repeat split; discriminate.
Qed.

(** A simulated API failure: [client] is bound and the service is down. *)
Lemma generation_failure_is_caught_witness :
  let r := generate_contract Samples.runtime ("client" :: module_globals)
             Samples.idle Samples.at_generate in
  ended r = Ret tt /\ state r = Samples.at_generate /\
  In (LogError "Error generating contract: Connection error.") (shown r).
Proof.
  intros r.
  pose proof (generation_failure_is_caught Samples.runtime
                ("client" :: module_globals) Samples.idle Samples.at_generate
                (Py.Exc "APIConnectionError" "Connection error.")
                eq_refl eq_refl) as (Hst & _ & _ & Hcaught & _).
  destruct (Hcaught eq_refl) as (Hend & Hlog & _).
  split; [exact Hend|]. split; [exact Hst | exact Hlog].
Defined.

(** C8 as stated fails for an exception that is not an instance of
    [Exception]: with [client] bound and the API call interrupted, the
    [KeyboardInterrupt] leaves the handler and no error is shown. *)
Lemma keyboard_interrupt_escapes_generate_contract :
  generate_contract Samples.interrupted ("client" :: module_globals)
    Samples.idle Samples.at_generate =
    Result (Raise Samples.keyboard_interrupt) Samples.at_generate
      [Header "Generate Contract"] /\
  ~ In (Error generic_error)
      (shown (generate_contract Samples.interrupted
                ("client" :: module_globals) Samples.idle
                Samples.at_generate)).
Proof.
  split; [reflexivity|].
  cbn. intros [H|[]]. discriminate H.
Qed.

(** ** Strings *)

Section StringFacts.

Lemma append_cons (c : ascii) (s t : string) :
  String c s +:+ t = String c (s +:+ t).
Proof. reflexivity. Qed.

Lemma append_nil_r (s : string) : s +:+ "" = s.
Proof.
  induction s as [|c s IH]; [reflexivity | now rewrite append_cons, IH].
Qed.

Lemma append_assoc (a b c : string) : (a +:+ b) +:+ c = a +:+ (b +:+ c).
Proof.
  induction a as [|x a IH]; [reflexivity | now rewrite !append_cons, IH].
Qed.

Lemma length_append (a b : string) :
  String.length (a +:+ b) = String.length a + String.length b.
Proof.
  induction a as [|x a IH]; [reflexivity|].
  rewrite append_cons. simpl. now rewrite IH.
Qed.

Lemma str_take_drop (n : nat) (s : string) :
  s = Py.str_take n s +:+ Py.str_drop n s.
Proof.
  revert s. induction n as [|n IH]; intros [|c s]; simpl; try reflexivity.
  rewrite append_cons. f_equal. apply IH.
Qed.

Lemma length_str_take (n : nat) (s : string) :
  String.length (Py.str_take n s) = Nat.min n (String.length s).
Proof.
  revert s. induction n as [|n IH]; intros [|c s]; simpl; try reflexivity.
  f_equal. apply IH.
Qed.

Lemma slice_to_from (n : nat) (s : string) :
  s = Py.slice_to n s +:+ Py.slice_from n s.
Proof.
  revert n. induction s as [|c s IH]; intros n; [reflexivity|].
  cbn [Py.slice_to Py.slice_from].
  destruct (Py.is_continuation c).
  - rewrite append_cons. f_equal. apply IH.
  - destruct n as [|k]; [reflexivity|].
    rewrite append_cons. f_equal. apply IH.
Qed.

Lemma len_slice_to (n : nat) (s : string) :
  Py.len (Py.slice_to n s) = Nat.min n (Py.len s).
Proof.
  revert n. induction s as [|c s IH]; intros n.
  - cbn. now rewrite Nat.min_0_r.
  - cbn [Py.slice_to Py.len]. destruct (Py.is_continuation c) eqn:E.
    + cbn [Py.len]. rewrite E. apply IH.
    + destruct n as [|k]; [reflexivity|].
      cbn [Py.len]. rewrite E, IH. reflexivity.
Qed.

(** A slice starts at a code point: it is never cut inside one. *)
Lemma slice_from_boundary (n : nat) (s : string) :
  n < Py.len s ->
  exists c r, Py.slice_from n s = String c r /\ Py.is_continuation c = false.
Proof.
  revert n. induction s as [|c s IH]; intros n Hn; cbn in Hn; [lia|].
  cbn [Py.slice_from]. destruct (Py.is_continuation c) eqn:E.
  - apply IH. exact Hn.
  - destruct n as [|k]; [now exists c, s|].
    apply IH. lia.
Qed.

Lemma strip_prefix_sound (p s rest : string) :
  strip_prefix p s = Some rest -> s = p +:+ rest.
Proof.
  revert s. induction p as [|a p IH]; intros s H; cbn in H.
  - now inversion H.
  - destruct s as [|b s]; [discriminate|].
    destruct (Ascii.eqb a b) eqn:E; [|discriminate].
    apply Ascii.eqb_eq in E. subst b. rewrite append_cons. f_equal.
    now apply IH.
Qed.

Lemma split_on_sound (sub s pre post : string) :
  split_on sub s = Some (pre, post) -> s = pre +:+ (sub +:+ post).
Proof.
  revert pre post. induction s as [|c s IH]; intros pre post H.
  - cbn in H. destruct (strip_prefix sub "") as [r|] eqn:E; [|discriminate].
    inversion H; subst. apply strip_prefix_sound in E. exact E.
  - cbn [split_on] in H.
    destruct (strip_prefix sub (String c s)) as [r|] eqn:E.
    + inversion H; subst. apply strip_prefix_sound in E. exact E.
    + destruct (split_on sub s) as [[pre' post']|]; [|discriminate].
      inversion H; subst. rewrite append_cons. f_equal. now apply IH.
Qed.

Lemma split_on_substring (sub s : string) :
  is_Some (split_on sub s) -> substring_of sub s.
Proof.
  intros [[pre post] H]. exists pre, post. now apply split_on_sound.
Qed.

End StringFacts.

(** ** Text extraction *)

(** Every text followed by a newline: the newline-separated texts with one
    more newline at the end, and nothing for no text at all. *)
Definition newline_terminated (texts : list string) : string :=
  match texts with
  | [] => ""
  | _ :: _ => Py.join Py.nl texts +:+ Py.nl
  end.

Lemma add_pages_all_ok (texts : list string) (acc : string) :
  add_pages (map Py.Ok texts) acc = Py.Ok (acc +:+ newline_terminated texts).
Proof.
  revert acc. induction texts as [|t rest IH]; intros acc; cbn [map add_pages].
  - cbn. now rewrite append_nil_r.
  - rewrite IH. f_equal. rewrite append_assoc. f_equal.
    destruct rest as [|t' rest']; cbn.
    + now rewrite append_nil_r.
    + now rewrite !append_assoc.
Qed.

(** C6 (as amended). For a PDF that parses and whose pages all give their
    text, [extract_text_from_pdf] returns every page's text followed by a
    newline, in page order: the newline-separated page texts plus a final
    newline (and the empty string for no page).  For a DOCX that parses,
    [extract_text_from_docx] returns the paragraph texts separated by
    newlines.  Neither touches the session state nor shows anything. *)
Theorem extraction_concatenates rt (file_contents : list Byte.byte)
    (s : session) :
  (forall texts,
     pdf_pages rt file_contents = Py.Ok (map Py.Ok texts) ->
     extract_text_from_pdf rt file_contents s =
       Result (Ret (match texts with
                    | [] => ""
                    | _ :: _ => Py.join Py.nl texts +:+ Py.nl
                    end)) s []) /\
  (forall paragraphs,
     docx_paragraphs rt file_contents = Py.Ok paragraphs ->
     extract_text_from_docx rt file_contents s =
       Result (Ret (Py.join Py.nl paragraphs)) s []).
Proof.
  split.
  - intros texts H. unfold extract_text_from_pdf, try_except, bind.
    rewrite H. cbn. rewrite add_pages_all_ok. reflexivity.
  - intros paragraphs H. unfold extract_text_from_docx, try_except, bind.
    rewrite H. reflexivity.
Qed.

Lemma extraction_concatenates_witness :
  ended (extract_text_from_pdf Samples.runtime [] fresh_session) =
    Ret ("a" +:+ Py.nl) /\
  ended (extract_text_from_docx Samples.runtime [] fresh_session) =
    Ret ("p" +:+ Py.nl +:+ "q").
Proof.
  pose proof (extraction_concatenates Samples.runtime [] fresh_session)
    as [Hpdf Hdocx].
  split.
  - rewrite (Hpdf ["a"] eq_refl). reflexivity.
  - rewrite (Hdocx ["p"; "q"] eq_refl). reflexivity.
Defined.

(** C6 as stated fails for PDF: the text of a one-page document comes back
    with a newline after it, which newline separators alone do not give. *)
Lemma pdf_text_ends_with_newline :
  ended (extract_text_from_pdf Samples.runtime [] fresh_session) =
    Ret ("a" +:+ Py.nl) /\
  "a" +:+ Py.nl <> Py.join Py.nl ["a"].
Proof. split; [reflexivity | discriminate]. Qed.

(** The MIME types [process_uploaded_file] has a branch for. *)
Definition supported_types : list string :=
  [ "application/pdf";
    "application/msword";
    "application/vnd.openxmlformats-officedocument.wordprocessingml.document";
    "text/plain" ].

(** C7. For an uploaded file whose declared MIME type is none of the four
    supported ones, [process_uploaded_file] returns [None] normally (no
    exception escapes), leaves the session state as it was, and shows one
    error that names the MIME type. *)
Theorem unsupported_type_is_reported rt (uploaded_file : UploadedFile)
    (s : session) :
  ~ In (file_mime uploaded_file) supported_types ->
  process_uploaded_file rt uploaded_file s =
    Result (Ret None) s
      [ Error ("Error processing file: Unsupported file type: " +:+
               file_mime uploaded_file) ].
Proof.
  intros H. unfold process_uploaded_file, try_except.
  assert (H1 : String.eqb (file_mime uploaded_file) "application/pdf" = false).
  { apply String.eqb_neq. intros E. apply H. rewrite E. cbn. tauto. }
  assert (H2 : bool_decide (file_mime uploaded_file ∈ supported_docx) = false).
  { apply bool_decide_eq_false. intros E. apply H.
    apply list_elem_of_In in E. cbn in E |- *. tauto. }
  assert (H3 : String.eqb (file_mime uploaded_file) "text/plain" = false).
  { apply String.eqb_neq. intros E. apply H. rewrite E. cbn. tauto. }
  cbn zeta. rewrite H1, H2, H3. reflexivity.
Qed.

Lemma unsupported_type_is_reported_witness :
  process_uploaded_file Samples.runtime
    {| file_bytes := []; file_mime := "image/png" |} fresh_session =
    Result (Ret None) fresh_session
      [ Error "Error processing file: Unsupported file type: image/png" ].
Proof.
  apply (unsupported_type_is_reported Samples.runtime
           {| file_bytes := []; file_mime := "image/png" |} fresh_session).
  cbn. intros [H|[H|[H|[H|[]]]]]; discriminate H.
Defined.

(** ** Running the monad *)

Lemma run_bind {A B} (m : M A) (k : A -> M B) (s : session) a s' out :
  m s = Result (Ret a) s' out ->
  bind m k s =
    Result (ended (k a s')) (state (k a s')) (out ++ shown (k a s')).
Proof. intros H. unfold bind. rewrite H. reflexivity. Qed.

(** Computations that never write to the session state. *)
Definition reads_only {A} (m : M A) : Prop := forall s, state (m s) = s.

Create HintDb reads_only.

Lemma reads_only_ret {A} (a : A) : reads_only (ret a).
Proof. intros s. reflexivity. Qed.

Lemma reads_only_raise {A} (e : Py.exc) : reads_only (@raise A e).
Proof. intros s. reflexivity. Qed.

Lemma reads_only_show (ev : ui_event) : reads_only (show ev).
Proof. intros s. reflexivity. Qed.

Lemma reads_only_call {A} (r : Py.res A) : reads_only (call r).
Proof. intros s. destruct r; reflexivity. Qed.

Lemma reads_only_get_contract_data : reads_only get_contract_data.
Proof. intros s. unfold get_contract_data. destruct (contract_data s); reflexivity. Qed.

Lemma reads_only_bind {A B} (m : M A) (k : A -> M B) :
  reads_only m -> (forall a, reads_only (k a)) -> reads_only (bind m k).
Proof.
  intros Hm Hk s. unfold bind. specialize (Hm s).
  destruct (m s) as [[a| |] s' out]; cbn in *; subst s'; try reflexivity.
  apply Hk.
Qed.

Lemma reads_only_try_except {A} (body : M A) (handler : Py.exc -> M A) :
  reads_only body -> (forall e, reads_only (handler e)) ->
  reads_only (try_except body handler).
Proof.
  intros Hb Hh s. unfold try_except. specialize (Hb s).
  destruct (body s) as [[a|e|] s' out]; cbn in *; subst s'; try reflexivity.
  destruct (Py.exc_is_exception e); [apply Hh | reflexivity].
Qed.

Lemma reads_only_if {A} (b : bool) (m1 m2 : M A) :
  reads_only m1 -> reads_only m2 -> reads_only (if b then m1 else m2).
Proof. destruct b; trivial. Qed.

Lemma reads_only_load_global globals name :
  reads_only (load_global globals name).
Proof.
  unfold load_global. apply reads_only_if;
    [apply reads_only_ret | apply reads_only_raise].
Qed.

#[local] Hint Resolve reads_only_ret reads_only_raise reads_only_show
  reads_only_call reads_only_get_contract_data reads_only_bind
  reads_only_try_except reads_only_if reads_only_load_global : reads_only.

(** ** The upload page *)

(** [process_uploaded_file] never writes to the session state. *)
Lemma process_uploaded_file_state rt (f : UploadedFile) (s : session) :
  state (process_uploaded_file rt f s) = s.
Proof.
  revert s. change (reads_only (process_uploaded_file rt f)).
  unfold process_uploaded_file, extract_text_from_pdf, extract_text_from_docx.
  cbn zeta. auto 12 with reads_only.
Qed.

Lemma upload_documents_extracted rt (w : widgets) (s : session)
    (d : gmap string Py.value) (f : UploadedFile) (text : string) :
  back_upload w = false ->
  file_uploader w = Some f ->
  contract_data s = Some d ->
  ended (process_uploaded_file rt f s) = Ret (Some text) ->
  text <> "" ->
  upload_documents rt w s =
    Result (if continue_btn w then Rerun else Ret tt)
      ((if continue_btn w then with_step "form" else fun x => x)
         (with_contract_data (<["extracted_text" := Py.VStr text]> d) s))
      ([Header "Upload Documents"] ++ shown (process_uploaded_file rt f s) ++
       [ Success "File processed successfully!";
         TextArea "Extracted Content" (preview text) ]).
Proof.
  intros Hb Hf Hd He Hne.
  pose proof (process_uploaded_file_state rt f s) as Hst.
  apply String.eqb_neq in Hne.
  destruct (process_uploaded_file rt f s) as [e s' out] eqn:E.
  cbn in He, Hst. subst e s'.
  unfold upload_documents. rewrite Hb, Hf.
  cbn -[process_uploaded_file preview].
  rewrite (run_bind _ _ _ _ _ _ E).
  rewrite Hne. destruct s as [st cd ps]. cbn in Hd. subst cd.
  destruct (continue_btn w); reflexivity.
Qed.

(** C10 (as amended). On the upload page (the back button not clicked),
    when processing the uploaded file returns a non-empty text: the text is
    stored whole under ['extracted_text'], the other keys of
    [contract_data] kept; and the preview shown is the text itself when it
    has at most 1000 characters, and otherwise its first 1000 characters
    followed by three dots.  Characters are code points, as [len] and
    slices count them: the cut never falls inside one. *)
Theorem upload_preview_and_storage rt (w : widgets) (s : session)
    (d : gmap string Py.value) (f : UploadedFile) (text : string) :
  back_upload w = false ->
  file_uploader w = Some f ->
  contract_data s = Some d ->
  ended (process_uploaded_file rt f s) = Ret (Some text) ->
  text <> "" ->
  let r := upload_documents rt w s in
  contract_data (state r) = Some (<["extracted_text" := Py.VStr text]> d) /\
  exists value,
    In (TextArea "Extracted Content" value) (shown r) /\
    (Py.len text <= 1000 -> value = text) /\
    (1000 < Py.len text ->
     exists head rest,
       text = head +:+ rest /\ Py.len head = 1000 /\
       (exists c rest', rest = String c rest' /\
                        Py.is_continuation c = false) /\
       value = head +:+ "...").
Proof.
  intros Hb Hf Hd He Hne r. subst r.
  rewrite (upload_documents_extracted rt w s d f text Hb Hf Hd He Hne).
  cbn [state shown]. split.
  { destruct (continue_btn w); reflexivity. }
  exists (preview text). split; [|split].
  - apply in_or_app. right. apply in_or_app. right. right. left. reflexivity.
  - intros Hle. unfold preview.
    destruct (Nat.ltb_spec 1000 (Py.len text)); [lia | reflexivity].
  - intros Hlt. unfold preview.
    destruct (Nat.ltb_spec 1000 (Py.len text)); [|lia].
    exists (Py.slice_to 1000 text), (Py.slice_from 1000 text).
    split; [apply slice_to_from|]. split; [|split; [|reflexivity]].
    + rewrite len_slice_to. lia.
    + now apply slice_from_boundary.
Qed.

Lemma upload_preview_and_storage_witness :
  let r := upload_documents Samples.runtime Samples.upload_hello
             Samples.at_upload in
  contract_data (state r) = Some {["extracted_text" := Py.VStr "hello"]} /\
  In (TextArea "Extracted Content" "hello") (shown r).
Proof.
  intros r.
  destruct (upload_preview_and_storage Samples.runtime Samples.upload_hello
              Samples.at_upload ∅ Samples.hello_file "hello"
              eq_refl eq_refl eq_refl eq_refl ltac:(discriminate))
    as [Hdata (value & Hin & Hshort & _)].
  split; [exact Hdata|].
  rewrite <- (Hshort ltac:(vm_compute; lia)). exact Hin.
Defined.

(** C10 as stated fails: for a text of 1001 characters the preview is not
    the text cut to 1000 characters, it is that followed by three dots. *)
Lemma upload_preview_has_ellipsis :
  shown (upload_documents Samples.long_text_runtime Samples.upload_hello
           Samples.at_upload) =
    [ Header "Upload Documents";
      Success "File processed successfully!";
      TextArea "Extracted Content"
        (Py.slice_to 1000 Samples.long_text +:+ "...") ] /\
  Py.slice_to 1000 Samples.long_text +:+ "..." <>
    Py.slice_to 1000 Samples.long_text.
Proof.
  split; [vm_compute; reflexivity|].
  intros H. apply (f_equal String.length) in H. vm_compute in H.
  discriminate H.
Qed.

(** A text of 600 accented letters fills 1200 bytes and has 600
    characters: the preview is the whole text. *)
Lemma preview_counts_characters :
  let text := String.concat "" (repeat "é" 600) in
  String.length text = 1200 /\ Py.len text = 600 /\ preview text = text.
Proof. vm_compute. repeat split. Qed.

(** An extraction that succeeds with the empty text stores nothing and
    shows no preview: the guard of the page is the truthiness of the text. *)
Lemma upload_empty_text_not_stored rt (w : widgets) (s : session)
    (f : UploadedFile) :
  back_upload w = false ->
  file_uploader w = Some f ->
  ended (process_uploaded_file rt f s) = Ret (Some "") ->
  state (upload_documents rt w s) = s /\
  shown (upload_documents rt w s) =
    [Header "Upload Documents"] ++ shown (process_uploaded_file rt f s).
Proof.
  intros Hb Hf He.
  pose proof (process_uploaded_file_state rt f s) as Hst.
  destruct (process_uploaded_file rt f s) as [e s' out] eqn:E.
  cbn in He, Hst. subst e s'.
  unfold upload_documents. rewrite Hb, Hf.
  cbn -[process_uploaded_file preview].
  rewrite (run_bind _ _ _ _ _ _ E). cbn. rewrite app_nil_r. split; reflexivity.
Qed.

(** ** Back navigation *)

Lemma upload_documents_back rt (w : widgets) (s : session) :
  back_upload w = true ->
  upload_documents rt w s =
    Result Rerun (with_step "home" s) [Header "Upload Documents"].
Proof. intros Hb. unfold upload_documents. rewrite Hb. reflexivity. Qed.

Lemma application_form_back (w : widgets) (s : session) :
  back_form w = true ->
  application_form w s =
    Result Rerun (with_step "home" s) [Header "Contract Application Form"].
Proof. intros Hb. unfold application_form. rewrite Hb. reflexivity. Qed.

(** C4 (as amended). Clicking the back button of the upload page or of the
    form page sets [step] to ['home']; clicking the back button of the
    generate page sets [step] to ['form'].  In the three cases the run
    stops there with a rerun and [contract_data] is left as it was. *)
Theorem back_navigation rt globals (w : widgets) (s : session) :
  (back_upload w = true ->
   let r := upload_documents rt w s in
   ended r = Rerun /\ step (state r) = Some "home" /\
   contract_data (state r) = contract_data s) /\
  (back_form w = true ->
   let r := application_form w s in
   ended r = Rerun /\ step (state r) = Some "home" /\
   contract_data (state r) = contract_data s) /\
  (back_generate w = true ->
   let r := generate_contract rt globals w s in
   ended r = Rerun /\ step (state r) = Some "form" /\
   contract_data (state r) = contract_data s).
Proof.
  split; [|split]; intros Hb r; subst r.
  - rewrite (upload_documents_back _ _ _ Hb). repeat split.
  - rewrite (application_form_back _ _ Hb). repeat split.
  - rewrite (generate_contract_back _ _ _ _ Hb). repeat split.
Qed.

Lemma back_navigation_witness :
  let r := generate_contract Samples.runtime module_globals
             Samples.click_back_generate Samples.at_generate in
  ended r = Rerun /\ step (state r) = Some "form" /\
  contract_data (state r) = Some Samples.acme_data.
Proof.
  exact (proj2 (proj2 (back_navigation Samples.runtime module_globals
                         Samples.click_back_generate Samples.at_generate))
           eq_refl).
Defined.

(** C4 as stated fails on the generate page: its back button leads to the
    form, not to the home page. *)
Lemma back_from_generate_is_not_home :
  step (state (generate_contract Samples.runtime module_globals
                 Samples.click_back_generate Samples.at_generate)) =
    Some "form" /\
  step (state (generate_contract Samples.runtime module_globals
                 Samples.click_back_generate Samples.at_generate)) <>
    Some "home".
Proof. split; [reflexivity | discriminate]. Qed.

(** ** The prompt *)

Lemma dget_lookup (d : gmap string Py.value) key v :
  d !! key = Some v -> dget d key = v.
Proof. intros H. unfold dget. now rewrite H. Qed.

Lemma prompt_of_acme (d : gmap string Py.value) :
  d !! "party1" = Some (Py.VStr "Acme") ->
  d !! "party2" = Some (Py.VStr "Globex") ->
  d !! "commodity" = Some (Py.VStr "Wheat") ->
  d !! "quantity" = Some (Py.VInt 100) ->
  d !! "price" = Some (Py.VFloat 5%float) ->
  forall sub,
    In sub [ "Party 1: Acme"; "Party 2: Globex"; "Commodity: Wheat";
             "Quantity: 100"; "Price: 5.0" ] ->
    is_Some (split_on sub (build_prompt d)).
Proof.
  intros H1 H2 H3 H4 H5 sub Hsub.
  unfold build_prompt, prompt_lines.
  rewrite (dget_lookup _ _ _ H1), (dget_lookup _ _ _ H2),
    (dget_lookup _ _ _ H3), (dget_lookup _ _ _ H4), (dget_lookup _ _ _ H5).
  generalize (Py.str (dget d "currency")) (Py.str (dget d "template")).
  intros cur tpl.
  cbn in Hsub.
  destruct Hsub as [<-|[<-|[<-|[<-|[<-|[]]]]]];
    vm_compute; eexists; reflexivity.
Qed.

(** C5. When [contract_data] holds party1 = "Acme", party2 = "Globex",
    commodity = "Wheat", quantity = 100 and price = 5.0, whatever else it
    holds, the prompt built by [generate_contract] contains the substrings
    "Party 1: Acme", "Party 2: Globex", "Commodity: Wheat", "Quantity: 100"
    and "Price: 5.0". *)
Theorem prompt_contains_fields (d : gmap string Py.value) :
  d !! "party1" = Some (Py.VStr "Acme") ->
  d !! "party2" = Some (Py.VStr "Globex") ->
  d !! "commodity" = Some (Py.VStr "Wheat") ->
  d !! "quantity" = Some (Py.VInt 100) ->
  d !! "price" = Some (Py.VFloat 5%float) ->
  substring_of "Party 1: Acme" (build_prompt d) /\
  substring_of "Party 2: Globex" (build_prompt d) /\
  substring_of "Commodity: Wheat" (build_prompt d) /\
  substring_of "Quantity: 100" (build_prompt d) /\
  substring_of "Price: 5.0" (build_prompt d).
Proof.
  intros H1 H2 H3 H4 H5.
  pose proof (prompt_of_acme d H1 H2 H3 H4 H5) as H.
  repeat split; apply split_on_substring, H; cbn; tauto.
Qed.

Lemma prompt_contains_fields_witness :
  substring_of "Party 1: Acme" (build_prompt Samples.acme_data) /\
  substring_of "Price: 5.0" (build_prompt Samples.acme_data).
Proof.
  pose proof (prompt_contains_fields Samples.acme_data
                eq_refl eq_refl eq_refl eq_refl eq_refl) as H.
  split; [exact (proj1 H) | exact (proj2 (proj2 (proj2 (proj2 H))))].
Defined.

(** ** The step invariant *)

(** A property of the session state that a computation keeps, however it
    ends. *)
Definition keeps (P : session -> Prop) {A} (m : M A) : Prop :=
  forall s, P s -> P (state (m s)).

Lemma keeps_reads_only (P : session -> Prop) {A} (m : M A) :
  reads_only m -> keeps P m.
Proof. intros H s Hs. now rewrite H. Qed.

Lemma keeps_bind (P : session -> Prop) {A B} (m : M A) (k : A -> M B) :
  keeps P m -> (forall a, keeps P (k a)) -> keeps P (bind m k).
Proof.
  intros Hm Hk s Hs. unfold bind. specialize (Hm s Hs).
  destruct (m s) as [[a|e|] s' out]; cbn in *; try assumption.
  now apply Hk.
Qed.

Lemma keeps_try_except (P : session -> Prop) {A} (body : M A)
    (handler : Py.exc -> M A) :
  keeps P body -> (forall e, keeps P (handler e)) ->
  keeps P (try_except body handler).
Proof.
  intros Hb Hh s Hs. unfold try_except. specialize (Hb s Hs).
  destruct (body s) as [[a|e|] s' out]; cbn in *; try assumption.
  destruct (Py.exc_is_exception e); [now apply Hh | assumption].
Qed.

Lemma keeps_if (P : session -> Prop) {A} (b : bool) (m1 m2 : M A) :
  keeps P m1 -> keeps P m2 -> keeps P (if b then m1 else m2).
Proof. destruct b; trivial. Qed.

Lemma keeps_when (P : session -> Prop) (b : bool) (m : M unit) :
  keeps P m -> keeps P (when b m).
Proof. intros H. destruct b; [exact H | intros s Hs; exact Hs]. Qed.

Lemma keeps_rerun (P : session -> Prop) {A} : keeps P (@st_rerun A).
Proof. intros s Hs. exact Hs. Qed.

Lemma valid_step_with_step (x : string) (s : session) :
  In x step_names -> valid_step (with_step x s).
Proof. intros Hx. exists x. split; [reflexivity | exact Hx]. Qed.

Lemma keeps_valid_set_step (x : string) :
  In x step_names -> keeps valid_step (set_step x).
Proof. intros Hx s _. now apply valid_step_with_step. Qed.

Lemma keeps_valid_set_contract_data d :
  keeps valid_step (set_contract_data d).
Proof. intros s Hs. exact Hs. Qed.

Lemma keeps_valid_process_uploaded_file rt f :
  keeps valid_step (process_uploaded_file rt f).
Proof.
  apply keeps_reads_only. intros s. apply process_uploaded_file_state.
Qed.

Lemma keeps_valid_generate_body rt globals :
  keeps valid_step (generate_body rt globals).
Proof. apply keeps_reads_only. intros s. apply generate_body_state. Qed.

Lemma keeps_valid_contract_data_get key default :
  keeps valid_step (contract_data_get key default).
Proof.
  apply keeps_reads_only. unfold contract_data_get.
  auto with reads_only.
Qed.

Create HintDb keeps.
#[local] Hint Resolve keeps_bind keeps_try_except keeps_if keeps_when
  keeps_rerun keeps_valid_set_step keeps_valid_set_contract_data
  keeps_valid_process_uploaded_file keeps_valid_generate_body
  keeps_valid_contract_data_get : keeps.
#[local] Hint Extern 1 (keeps _ (show _)) =>
  apply keeps_reads_only, reads_only_show : keeps.
#[local] Hint Extern 1 (keeps _ (ret _)) =>
  apply keeps_reads_only, reads_only_ret : keeps.
#[local] Hint Extern 1 (keeps _ (call _)) =>
  apply keeps_reads_only, reads_only_call : keeps.
#[local] Hint Extern 1 (keeps _ get_contract_data) =>
  apply keeps_reads_only, reads_only_get_contract_data : keeps.
#[local] Hint Extern 1 (In _ step_names) => cbn; tauto : keeps.

Lemma keeps_valid_home (w : widgets) : keeps valid_step (home w).
Proof. unfold home. auto 10 with keeps. Qed.

Lemma keeps_valid_upload_documents rt (w : widgets) :
  keeps valid_step (upload_documents rt w).
Proof.
  unfold upload_documents.
  repeat (apply keeps_bind; [auto 10 with keeps | intros]).
  destruct (file_uploader w); [|auto with keeps].
  apply keeps_bind; [auto with keeps|]. intros [text|]; auto 12 with keeps.
Qed.

Lemma keeps_valid_application_form (w : widgets) :
  keeps valid_step (application_form w).
Proof.
  unfold application_form.
  repeat (apply keeps_bind; [auto 10 with keeps | intros]).
  apply keeps_when. cbn zeta. apply keeps_bind.
  - destruct (missing_fields (form_data w)); auto 10 with keeps.
  - intros valid. auto 12 with keeps.
Qed.

Lemma keeps_valid_generate_contract rt globals (w : widgets) :
  keeps valid_step (generate_contract rt globals w).
Proof. unfold generate_contract. auto 12 with keeps. Qed.

(** [__init__] gives [step] a value when it has none and keeps the one it
    has. *)
Lemma init_valid_step (s : session) :
  step s = None \/ valid_step s -> valid_step (state (init s)).
Proof.
  intros H. unfold init.
  destruct s as [[x|] cd ps]; cbn.
  - destruct H as [H|H]; [discriminate|].
    destruct cd, ps; exact H.
  - destruct cd, ps; apply valid_step_with_step; cbn; tauto.
Qed.

Lemma main_valid_step rt globals (w : widgets) (s : session) :
  step s = None \/ valid_step s -> valid_step (state (main rt globals w s)).
Proof.
  intros H. apply init_valid_step in H.
  unfold main. unfold bind at 1.
  change (ended (init s)) with (@Ret unit tt). cbn [ended state shown].
  revert H. generalize (state (init s)). intros s1 H1.
  revert s1 H1.
  change (keeps valid_step
    (show (SidebarMarkdown "### Navigation") ;;
     current <- get_step ;;
     label <- call (getitem steps current) ;;
     show (SidebarText ("Current Step: " +:+ label)) ;;
     current0 <- get_step ;;
     (if String.eqb current0 "home" then home w
      else if String.eqb current0 "upload" then upload_documents rt w
      else if String.eqb current0 "form" then application_form w
      else if String.eqb current0 "generate"
           then generate_contract rt globals w
      else ret tt))).
  assert (Hget : keeps valid_step get_step).
  { apply keeps_reads_only. intros s1. unfold get_step.
    destruct (step s1); reflexivity. }
  pose proof keeps_valid_home. pose proof keeps_valid_upload_documents.
  pose proof keeps_valid_application_form.
  pose proof keeps_valid_generate_contract.
  auto 20 with keeps.
Qed.

Lemma reachable_step (s : session) :
  reachable s -> step s = None \/ valid_step s.
Proof.
  induction 1 as [|rt w s _ IH].
  - left. reflexivity.
  - right. exact (main_valid_step rt module_globals w s IH).
Qed.

(** C9. In a fresh session [__init__] sets [step] to ['home']; and from
    every session state that runs of the script can reach, whatever the
    widgets return and whatever the libraries do in a run, [step] is one of
    'home', 'upload', 'form' and 'generate' after [__init__] and after the
    run, however the run ends. *)
Theorem step_is_always_valid rt (w : widgets) (s : session) :
  reachable s ->
  step (state (init fresh_session)) = Some "home" /\
  valid_step (state (init s)) /\
  valid_step (state (app rt w s)).
Proof.
  intros H. apply reachable_step in H.
  split; [reflexivity|]. split.
  - exact (init_valid_step s H).
  - exact (main_valid_step rt module_globals w s H).
Qed.

Lemma step_is_always_valid_witness :
  valid_step (state (app Samples.runtime Samples.idle fresh_session)).
Proof.
  exact (proj2 (proj2 (step_is_always_valid Samples.runtime Samples.idle
                         fresh_session reach_fresh))).
Defined.

(** * Further properties of the script *)

(** ** [__init__] *)

(** [__init__] returns without showing anything, leaves the three keys
    present, never changes a key that is already there, and running it
    again changes nothing more. *)
Theorem init_is_idempotent (s : session) :
  let r := init s in
  ended r = Ret tt /\ shown r = [] /\
  is_Some (step (state r)) /\
  is_Some (contract_data (state r)) /\
  is_Some (processing_status (state r)) /\
  (forall x, step s = Some x -> step (state r) = Some x) /\
  (forall d, contract_data s = Some d -> contract_data (state r) = Some d) /\
  (forall v, processing_status s = Some v ->
             processing_status (state r) = Some v) /\
  state (init (state r)) = state r.
Proof.
  destruct s as [[x|] [d|] [v|]]; cbn;
    repeat split; eauto; intros ? H; now inversion H.
Qed.

(** A session in which the three keys exist is left as it is. *)
Lemma init_initialized (x : string) (d : gmap string Py.value)
    (v : Py.value) :
  init (Session (Some x) (Some d) (Some v)) =
    Result (Ret tt) (Session (Some x) (Some d) (Some v)) [].
Proof. reflexivity. Qed.

(** ** The home page *)

(** The home page never reruns and never raises; it only writes [step]:
    ['form'] when the form button is clicked, else ['upload'] when the
    upload button is, else nothing. *)
Theorem home_navigation (w : widgets) (s : session) :
  let r := home w s in
  ended r = Ret tt /\
  contract_data (state r) = contract_data s /\
  processing_status (state r) = processing_status s /\
  step (state r) =
    (if form_btn w then Some "form"
     else if upload_btn w then Some "upload"
     else step s) /\
  shown r =
    [ Title "Contract Platform";
      Write
        "Welcome to the Contract Platform. Choose an option to get started." ].
Proof.
  unfold home. destruct (upload_btn w), (form_btn w); repeat split.
Qed.

(** ** Text extraction: failures and dispatch *)

Lemma run_try_ret {A} (body : M A) (handler : Py.exc -> M A) s a s' out :
  body s = Result (Ret a) s' out ->
  try_except body handler s = Result (Ret a) s' out.
Proof. intros H. unfold try_except. rewrite H. reflexivity. Qed.

Lemma run_try_raise {A} (body : M A) (handler : Py.exc -> M A) s e s' out :
  body s = Result (Raise e) s' out ->
  Py.exc_is_exception e = true ->
  try_except body handler s =
    Result (ended (handler e s')) (state (handler e s'))
      (out ++ shown (handler e s')).
Proof. intros H Hx. unfold try_except. rewrite H. cbn. now rewrite Hx. Qed.

Lemma run_try_escape {A} (body : M A) (handler : Py.exc -> M A) s e s' out :
  body s = Result (Raise e) s' out ->
  Py.exc_is_exception e = false ->
  try_except body handler s = Result (Raise e) s' out.
Proof. intros H Hx. unfold try_except. rewrite H. cbn. now rewrite Hx. Qed.

Lemma run_bind_raise {A B} (m : M A) (k : A -> M B) s e s' out :
  m s = Result (Raise e) s' out -> bind m k s = Result (Raise e) s' out.
Proof. intros H. unfold bind. rewrite H. reflexivity. Qed.

(** The loop over the pages stops at the first page whose text cannot be
    extracted: the text of the pages before it is lost. *)
Lemma add_pages_first_error (texts : list string) (e : Py.exc)
    (rest : list (Py.res string)) (acc : string) :
  add_pages (map Py.Ok texts ++ Py.Err e :: rest) acc = Py.Err e.
Proof.
  revert acc. induction texts as [|t texts IH]; intros acc; cbn.
  - reflexivity.
  - apply IH.
Qed.

Definition pdf_failure : string :=
  "Failed to process PDF file. Please ensure the file is not corrupted.".
Definition docx_failure : string :=
  "Failed to process DOCX file. Please ensure the file is not corrupted.".

Lemma extract_text_from_pdf_ok rt b (s : session) pages text :
  pdf_pages rt b = Py.Ok pages -> add_pages pages "" = Py.Ok text ->
  extract_text_from_pdf rt b s = Result (Ret text) s [].
Proof.
  intros Hp Ha. unfold extract_text_from_pdf, try_except, bind.
  rewrite Hp. cbn. rewrite Ha. reflexivity.
Qed.

Lemma extract_text_from_pdf_fails rt b (s : session) e :
  Py.exc_is_exception e = true ->
  pdf_pages rt b = Py.Err e \/
  (exists pages, pdf_pages rt b = Py.Ok pages /\
                 add_pages pages "" = Py.Err e) ->
  extract_text_from_pdf rt b s =
    Result (Raise (Py.Exc "Exception" pdf_failure)) s
      [LogError ("Error extracting PDF text: " +:+ Py.exc_str e)].
Proof.
  intros Hx [Hp|(pages & Hp & Ha)];
    unfold extract_text_from_pdf, try_except, bind; rewrite Hp; cbn.
  - rewrite Hx. reflexivity.
  - rewrite Ha. cbn. rewrite Hx. reflexivity.
Qed.

Lemma extract_text_from_pdf_escapes rt b (s : session) e :
  Py.exc_is_exception e = false ->
  pdf_pages rt b = Py.Err e \/
  (exists pages, pdf_pages rt b = Py.Ok pages /\
                 add_pages pages "" = Py.Err e) ->
  extract_text_from_pdf rt b s = Result (Raise e) s [].
Proof.
  intros Hx [Hp|(pages & Hp & Ha)];
    unfold extract_text_from_pdf, try_except, bind; rewrite Hp; cbn.
  - rewrite Hx. reflexivity.
  - rewrite Ha. cbn. rewrite Hx. reflexivity.
Qed.

Lemma extract_text_from_docx_fails rt b (s : session) e :
  Py.exc_is_exception e = true ->
  docx_paragraphs rt b = Py.Err e ->
  extract_text_from_docx rt b s =
    Result (Raise (Py.Exc "Exception" docx_failure)) s
      [LogError ("Error extracting DOCX text: " +:+ Py.exc_str e)].
Proof.
  intros Hx Hp. unfold extract_text_from_docx, try_except, bind.
  rewrite Hp. cbn. rewrite Hx. reflexivity.
Qed.

Lemma extract_text_from_docx_escapes rt b (s : session) e :
  Py.exc_is_exception e = false ->
  docx_paragraphs rt b = Py.Err e ->
  extract_text_from_docx rt b s = Result (Raise e) s [].
Proof.
  intros Hx Hp. unfold extract_text_from_docx, try_except, bind.
  rewrite Hp. cbn. rewrite Hx. reflexivity.
Qed.

Lemma extract_text_from_docx_ok rt b (s : session) paragraphs :
  docx_paragraphs rt b = Py.Ok paragraphs ->
  extract_text_from_docx rt b s =
    Result (Ret (Py.join Py.nl paragraphs)) s [].
Proof.
  intros Hp. unfold extract_text_from_docx, try_except, bind.
  rewrite Hp. reflexivity.
Qed.

(** How [process_uploaded_file] ends, by the branch its MIME type takes. *)
Lemma process_pdf rt (f : UploadedFile) (s : session) :
  file_mime f = "application/pdf" ->
  process_uploaded_file rt f s =
    try_except
      (text <- extract_text_from_pdf rt (file_bytes f) ;; ret (Some text))
      (fun e =>
         show (Error ("Error processing file: " +:+ Py.exc_str e)) ;;
         ret None) s.
Proof. intros H. unfold process_uploaded_file. rewrite H. reflexivity. Qed.

Lemma process_docx rt (f : UploadedFile) (s : session) :
  In (file_mime f) supported_docx ->
  process_uploaded_file rt f s =
    try_except
      (text <- extract_text_from_docx rt (file_bytes f) ;; ret (Some text))
      (fun e =>
         show (Error ("Error processing file: " +:+ Py.exc_str e)) ;;
         ret None) s.
Proof.
  intros H. unfold process_uploaded_file. cbn zeta.
  assert (H1 : String.eqb (file_mime f) "application/pdf" = false).
  { apply String.eqb_neq. intros E. rewrite E in H. cbn in H.
    destruct H as [H|[H|[]]]; discriminate H. }
  assert (H2 : bool_decide (file_mime f ∈ supported_docx) = true).
  { apply bool_decide_eq_true. now apply list_elem_of_In. }
  rewrite H1, H2. reflexivity.
Qed.

Lemma process_plain rt (f : UploadedFile) (s : session) :
  file_mime f = "text/plain" ->
  process_uploaded_file rt f s =
    try_except
      (text <- call (decode_utf8 rt (file_bytes f)) ;; ret (Some text))
      (fun e =>
         show (Error ("Error processing file: " +:+ Py.exc_str e)) ;;
         ret None) s.
Proof. intros H. unfold process_uploaded_file. rewrite H. reflexivity. Qed.

(** A document that cannot be read is reported, not raised, when the
    library's exception is an instance of [Exception].  For a PDF that the
    reader rejects, or one of whose pages fails after any number of good
    pages, and for a DOC/DOCX that the reader rejects,
    [process_uploaded_file] returns [None] with the session state as it
    was; the user sees the fixed message for the format, and the library's
    own message goes to the log only.  For a plain-text file that is not
    valid UTF-8 the decoder's own message is what the user sees. *)
Theorem unreadable_document_is_reported rt (f : UploadedFile) (s : session)
    (e : Py.exc) :
  Py.exc_is_exception e = true ->
  (file_mime f = "application/pdf" ->
   pdf_pages rt (file_bytes f) = Py.Err e \/
   (exists texts rest,
      pdf_pages rt (file_bytes f) =
        Py.Ok (map Py.Ok texts ++ Py.Err e :: rest)) ->
   process_uploaded_file rt f s =
     Result (Ret None) s
       [ LogError ("Error extracting PDF text: " +:+ Py.exc_str e);
         Error ("Error processing file: " +:+ pdf_failure) ]) /\
  (In (file_mime f) supported_docx ->
   docx_paragraphs rt (file_bytes f) = Py.Err e ->
   process_uploaded_file rt f s =
     Result (Ret None) s
       [ LogError ("Error extracting DOCX text: " +:+ Py.exc_str e);
         Error ("Error processing file: " +:+ docx_failure) ]) /\
  (file_mime f = "text/plain" ->
   decode_utf8 rt (file_bytes f) = Py.Err e ->
   process_uploaded_file rt f s =
     Result (Ret None) s
       [ Error ("Error processing file: " +:+ Py.exc_str e) ]).
Proof.
  intros Hexc. split; [|split].
  - intros Hm Hp. rewrite (process_pdf _ _ _ Hm).
    assert (Hx : extract_text_from_pdf rt (file_bytes f) s =
      Result (Raise (Py.Exc "Exception" pdf_failure)) s
        [LogError ("Error extracting PDF text: " +:+ Py.exc_str e)]).
    { apply extract_text_from_pdf_fails; [exact Hexc|].
      destruct Hp as [Hp|(texts & rest & Hp)]; [now left|right].
      eexists. split; [exact Hp | apply add_pages_first_error]. }
    rewrite (run_try_raise _ _ _ _ _ _
               (run_bind_raise _ _ _ _ _ _ Hx) eq_refl).
    reflexivity.
  - intros Hm Hp. rewrite (process_docx _ _ _ Hm).
    rewrite (run_try_raise _ _ _ _ _ _
               (run_bind_raise _ _ _ _ _ _
                  (extract_text_from_docx_fails _ _ s _ Hexc Hp)) eq_refl).
    reflexivity.
  - intros Hm Hp. rewrite (process_plain _ _ _ Hm).
    unfold try_except, bind. rewrite Hp. cbn. rewrite Hexc. reflexivity.
Qed.

Lemma concat_cons_cons (sep x y : string) (rest : list string) :
  String.concat sep (x :: y :: rest) =
    x +:+ (sep +:+ String.concat sep (y :: rest)).
Proof. reflexivity. Qed.

Lemma concat_terminated (texts : list string) :
  String.concat "" (map (fun t => t +:+ Py.nl) texts) =
    newline_terminated texts.
Proof.
  induction texts as [|t rest IH]; [reflexivity|].
  destruct rest as [|t' rest']; [reflexivity|].
  change (map (fun t0 => t0 +:+ Py.nl) (t :: t' :: rest'))
    with ((t +:+ Py.nl) :: (t' +:+ Py.nl) ::
          map (fun t0 => t0 +:+ Py.nl) rest').
  rewrite concat_cons_cons.
  change ((t' +:+ Py.nl) :: map (fun t0 => t0 +:+ Py.nl) rest')
    with (map (fun t0 => t0 +:+ Py.nl) (t' :: rest')).
  rewrite IH. unfold newline_terminated, Py.join.
  rewrite concat_cons_cons, !append_assoc. reflexivity.
Qed.

(** A document that is read is returned whole and nothing is shown: for a
    PDF every page's text followed by a newline; for a DOC/DOCX (either of
    the two MIME types) the newline-separated paragraphs; for plain text
    the decoded text. *)
Theorem readable_document_is_extracted rt (f : UploadedFile) (s : session) :
  (forall texts,
     file_mime f = "application/pdf" ->
     pdf_pages rt (file_bytes f) = Py.Ok (map Py.Ok texts) ->
     process_uploaded_file rt f s =
       Result (Ret (Some (String.concat ""
                            (map (fun t => t +:+ Py.nl) texts)))) s []) /\
  (forall paragraphs,
     In (file_mime f) supported_docx ->
     docx_paragraphs rt (file_bytes f) = Py.Ok paragraphs ->
     process_uploaded_file rt f s =
       Result (Ret (Some (Py.join Py.nl paragraphs))) s []) /\
  (forall text,
     file_mime f = "text/plain" ->
     decode_utf8 rt (file_bytes f) = Py.Ok text ->
     process_uploaded_file rt f s = Result (Ret (Some text)) s []).
Proof.
  split; [|split].
  - intros texts Hm Hp. rewrite (process_pdf _ _ _ Hm).
    assert (Ha : add_pages (map Py.Ok texts) "" =
                 Py.Ok (String.concat "" (map (fun t => t +:+ Py.nl) texts))).
    { rewrite add_pages_all_ok, concat_terminated. reflexivity. }
    unfold try_except.
    rewrite (run_bind _ _ _ _ _ _ (extract_text_from_pdf_ok _ _ s _ _ Hp Ha)).
    reflexivity.
  - intros paragraphs Hm Hp. rewrite (process_docx _ _ _ Hm).
    unfold try_except.
    rewrite (run_bind _ _ _ _ _ _ (extract_text_from_docx_ok _ _ s _ Hp)).
    reflexivity.
  - intros text Hm Hp. rewrite (process_plain _ _ _ Hm).
    unfold try_except, bind. rewrite Hp. reflexivity.
Qed.

Lemma process_unsupported rt (f : UploadedFile) (s : session) :
  String.eqb (file_mime f) "application/pdf" = false ->
  bool_decide (file_mime f ∈ supported_docx) = false ->
  String.eqb (file_mime f) "text/plain" = false ->
  process_uploaded_file rt f s =
    Result (Ret None) s
      [ Error ("Error processing file: Unsupported file type: " +:+
               file_mime f) ].
Proof.
  intros H1 H2 H3. unfold process_uploaded_file, try_except.
  cbn zeta. rewrite H1, H2, H3. reflexivity.
Qed.

Lemma process_uploaded_file_cases rt (f : UploadedFile) (s : session) :
  (exists text, ended (process_uploaded_file rt f s) = Ret (Some text) /\
                shown (process_uploaded_file rt f s) = []) \/
  (ended (process_uploaded_file rt f s) = Ret None /\
   exists msg,
     last (shown (process_uploaded_file rt f s)) = Some (Error msg)) \/
  (exists e, ended (process_uploaded_file rt f s) = Raise e /\
             Py.exc_is_exception e = false /\
             shown (process_uploaded_file rt f s) = []).
Proof.
  destruct (String.eqb (file_mime f) "application/pdf") eqn:H1.
  { apply String.eqb_eq in H1. rewrite (process_pdf _ _ _ H1).
    assert (Hfail : forall e,
      pdf_pages rt (file_bytes f) = Py.Err e \/
      (exists pages, pdf_pages rt (file_bytes f) = Py.Ok pages /\
                     add_pages pages "" = Py.Err e) ->
      let r := try_except
                 (text <- extract_text_from_pdf rt (file_bytes f) ;;
                  ret (Some text))
                 (fun e0 =>
                    show (Error ("Error processing file: " +:+
                                 Py.exc_str e0)) ;;
                    ret None) s in
      (ended r = Ret None /\ exists msg, last (shown r) = Some (Error msg)) \/
      (exists e', ended r = Raise e' /\ Py.exc_is_exception e' = false /\
                  shown r = [])).
    { intros e Hp r. subst r. destruct (Py.exc_is_exception e) eqn:Hx.
      - left.
        rewrite (run_try_raise _ _ _ _ _ _
                   (run_bind_raise _ _ _ _ _ _
                      (extract_text_from_pdf_fails _ _ s e Hx Hp)) eq_refl).
        split; [reflexivity | eexists; reflexivity].
      - right. exists e.
        rewrite (run_try_escape _ _ _ _ _ _
                   (run_bind_raise _ _ _ _ _ _
                      (extract_text_from_pdf_escapes _ _ s e Hx Hp)) Hx).
        repeat split; assumption. }
    destruct (pdf_pages rt (file_bytes f)) as [pages|e] eqn:Hp.
    - destruct (add_pages pages "") as [text|e] eqn:Ha.
      + left. exists text. unfold try_except.
        rewrite (run_bind _ _ _ _ _ _
                   (extract_text_from_pdf_ok _ _ s _ _ Hp Ha)).
        split; reflexivity.
      + right. apply (Hfail e). right. now exists pages.
    - right. apply (Hfail e). now left. }
  destruct (bool_decide (file_mime f ∈ supported_docx)) eqn:H2.
  { apply bool_decide_eq_true in H2. apply list_elem_of_In in H2.
    rewrite (process_docx _ _ _ H2).
    destruct (docx_paragraphs rt (file_bytes f)) as [ps|e] eqn:Hp.
    - left. eexists. unfold try_except.
      rewrite (run_bind _ _ _ _ _ _ (extract_text_from_docx_ok _ _ s _ Hp)).
      split; reflexivity.
    - right. destruct (Py.exc_is_exception e) eqn:Hx.
      + left.
        rewrite (run_try_raise _ _ _ _ _ _
                   (run_bind_raise _ _ _ _ _ _
                      (extract_text_from_docx_fails _ _ s _ Hx Hp)) eq_refl).
        split; [reflexivity | eexists; reflexivity].
      + right. exists e.
        rewrite (run_try_escape _ _ _ _ _ _
                   (run_bind_raise _ _ _ _ _ _
                      (extract_text_from_docx_escapes _ _ s _ Hx Hp)) Hx).
        repeat split; assumption. }
  destruct (String.eqb (file_mime f) "text/plain") eqn:H3.
  { apply String.eqb_eq in H3. rewrite (process_plain _ _ _ H3).
    unfold try_except, bind.
    destruct (decode_utf8 rt (file_bytes f)) as [text|e].
    - left. exists text. split; reflexivity.
    - right. cbn. destruct (Py.exc_is_exception e) eqn:Hx.
      + left. split; [reflexivity | eexists; reflexivity].
      + right. exists e. repeat split; assumption. }
  right. left. rewrite (process_unsupported _ _ _ H1 H2 H3).
  split; [reflexivity | eexists; reflexivity].
Qed.

(** Whatever the file and whatever the libraries do, [process_uploaded_file]
    never reruns, lets no instance of [Exception] escape and leaves the
    session state as it was.  It ends in one of three ways: it returns a
    text and has shown nothing; it returns [None] after an error message,
    which is the last thing it shows; or an exception that is not an
    instance of [Exception], raised inside a library, passes through it
    with nothing shown. *)
Theorem process_uploaded_file_contained rt (f : UploadedFile) (s : session) :
  let r := process_uploaded_file rt f s in
  state r = s /\
  ((exists text, ended r = Ret (Some text) /\ shown r = []) \/
   (ended r = Ret None /\ exists msg, last (shown r) = Some (Error msg)) \/
   (exists e, ended r = Raise e /\ Py.exc_is_exception e = false /\
              shown r = [])).
Proof.
  intros r. subst r. split.
  - apply process_uploaded_file_state.
  - apply process_uploaded_file_cases.
Qed.

(** ** The upload page without a text *)

(** When no file is chosen, or when processing the file returns [None],
    the upload page returns normally and leaves the session state as it
    was (the continue button is not even rendered). *)
Theorem upload_without_text_changes_nothing rt (w : widgets) (s : session) :
  back_upload w = false ->
  (file_uploader w = None ->
   upload_documents rt w s =
     Result (Ret tt) s [Header "Upload Documents"]) /\
  (forall f,
     file_uploader w = Some f ->
     ended (process_uploaded_file rt f s) = Ret None ->
     upload_documents rt w s =
       Result (Ret tt) s
         ([Header "Upload Documents"] ++
          shown (process_uploaded_file rt f s))).
Proof.
  intros Hb. split.
  - intros Hf. unfold upload_documents. rewrite Hb, Hf. reflexivity.
  - intros f Hf He.
    pose proof (process_uploaded_file_state rt f s) as Hst.
    destruct (process_uploaded_file rt f s) as [e s' out] eqn:E.
    cbn in He, Hst. subst e s'.
    unfold upload_documents. rewrite Hb, Hf.
    cbn -[process_uploaded_file].
    rewrite (run_bind _ _ _ _ _ _ E). cbn. rewrite app_nil_r. reflexivity.
Qed.

(** The continue button of the upload page: after an extraction that
    returned a non-empty text, clicking it stores the text, sets [step] to
    ['form'] and reruns; without the click the run returns and [step] is
    left as it was. *)
Theorem upload_continue_goes_to_form rt (w : widgets) (s : session)
    (d : gmap string Py.value) (f : UploadedFile) (text : string) :
  back_upload w = false ->
  file_uploader w = Some f ->
  contract_data s = Some d ->
  ended (process_uploaded_file rt f s) = Ret (Some text) ->
  text <> "" ->
  let r := upload_documents rt w s in
  (continue_btn w = true ->
   ended r = Rerun /\ step (state r) = Some "form") /\
  (continue_btn w = false ->
   ended r = Ret tt /\ step (state r) = step s) /\
  (exists d', contract_data (state r) = Some d' /\
     d' !! "extracted_text" = Some (Py.VStr text) /\
     forall k, k <> "extracted_text" -> d' !! k = d !! k).
Proof.
  intros Hb Hf Hd He Hne r. subst r.
  rewrite (upload_documents_extracted rt w s d f text Hb Hf Hd He Hne).
  cbn [ended state].
  split; [|split].
  - intros ->. split; reflexivity.
  - intros ->. split; reflexivity.
  - exists (<["extracted_text" := Py.VStr text]> d). split.
    + destruct (continue_btn w); reflexivity.
    + split; [apply lookup_insert_eq|].
      intros k Hk. now apply lookup_insert_ne.
Qed.

(** ** The form page *)

(** Rendering the form without a click changes nothing: with no button
    clicked the page returns normally, shows no error and leaves the
    session state as it was, whatever stands in the fields. *)
Theorem form_render_changes_nothing (w : widgets) (s : session)
    (d : gmap string Py.value) :
  contract_data s = Some d ->
  back_form w = false ->
  form_submit_button w = false ->
  application_form w s =
    Result (Ret tt) s
      [ Header "Contract Application Form";
        Subheader "1. Parties Involved";
        Subheader "2. Contract Details";
        Subheader "3. Additional Terms" ].
Proof.
  intros Hd Hb Hs. unfold application_form. rewrite Hb, Hs.
  destruct s as [st cd ps]. cbn in Hd. subst cd. reflexivity.
Qed.

Lemma getitem_has_key (table : list (string * string)) (key : string) :
  has_key table key = true -> exists v, getitem table key = Py.Ok v.
Proof.
  induction table as [|[k v] rest IH]; cbn; [discriminate|].
  destruct (String.eqb key k); [eauto | exact IH].
Qed.

Lemma getitem_no_key (table : list (string * string)) (key : string) :
  has_key table key = false ->
  getitem table key = Py.Err (Py.Exc "KeyError" (Py.repr_str key)).
Proof.
  induction table as [|[k v] rest IH]; cbn; [reflexivity|].
  destruct (String.eqb key k); [discriminate | exact IH].
Qed.

Lemma missing_fields_required (data : list (string * Py.value)) :
  Forall (fun k => has_key required_fields k = true) (missing_fields data).
Proof.
  unfold missing_fields. induction data as [|[k v] rest IH]; [constructor|].
  cbn [List.filter fst snd].
  destruct (has_key required_fields k) eqn:Hk; cbn [andb]; [|exact IH].
  destruct (negb (Py.truthy v)); [|exact IH].
  cbn [map fst]. constructor; assumption.
Qed.

(** The error message of the form can always be built: whatever dict is
    validated, every field [missing_fields] reports is a key of
    [required_fields] and has a falsy value in the dict, so the lookup of
    its label never raises [KeyError] and there is one label per missing
    field. *)
Theorem missing_labels_never_fail (data : list (string * Py.value)) :
  (forall k, In k (missing_fields data) ->
     has_key required_fields k = true /\
     exists v, In (k, v) data /\ Py.truthy v = false) /\
  exists labels,
    map_res (getitem required_fields) (missing_fields data) = Py.Ok labels /\
    length labels = length (missing_fields data).
Proof.
  split.
  - intros k Hk. unfold missing_fields in Hk.
    apply in_map_iff in Hk. destruct Hk as ([k' v] & <- & Hin).
    apply filter_In in Hin. destruct Hin as [Hin Hb].
    apply andb_true_iff in Hb. destruct Hb as [Hreq Hfalsy].
    cbn [fst snd] in *. split; [exact Hreq|].
    exists v. split; [exact Hin|]. now apply negb_true_iff.
  - pose proof (missing_fields_required data) as H.
    induction H as [|k ks Hk _ IH]; [exists []; split; reflexivity|].
    destruct IH as (labels & Hl & Hlen).
    destruct (getitem_has_key _ _ Hk) as [v Hv].
    exists (v :: labels). cbn [map_res]. rewrite Hv, Hl.
    split; [reflexivity | cbn; now rewrite Hlen].
Qed.

(** ** The generate page when [client] is bound *)

(** The request [generate_contract] sends for a prompt. *)
Definition request_of (prompt : string) : chat_request :=
  {| model := "gpt-4";
     messages := [ ("system", system_message); ("user", prompt) ];
     max_tokens := 2000;
     temperature := 0x1.6666666666666p-1%float |}.

(** A result with more shown before it. *)
Definition after {A} (out : list ui_event) (r : result A) : result A :=
  Result (ended r) (state r) (out ++ shown r).

Lemma run_ret_bind {A B} (a : A) (k : A -> M B) (s : session) :
  bind (ret a) k s = k a s.
Proof. unfold bind. cbn. destruct (k a s); reflexivity. Qed.

Lemma run_show_bind {B} (ev : ui_event) (k : unit -> M B) (s : session) :
  bind (show ev) k s = after [ev] (k tt s).
Proof. reflexivity. Qed.

Lemma run_get_contract_data_bind {B} (k : gmap string Py.value -> M B)
    (s : session) (d : gmap string Py.value) :
  contract_data s = Some d -> bind get_contract_data k s = k d s.
Proof.
  intros Hd. unfold bind, get_contract_data. rewrite Hd. cbn.
  destruct (k d s); reflexivity.
Qed.

Lemma generate_body_request rt globals (s : session)
    (d : gmap string Py.value) :
  In "client" globals ->
  contract_data s = Some d ->
  generate_body rt globals s =
    (response <- call (completions_create rt (request_of (build_prompt d))) ;;
     contract_text <- call (first_content response) ;;
     show (Markdown "### Generated Contract") ;;
     show (TextArea "Contract Content" contract_text) ;;
     show (DownloadButton "📥 Download as TXT" contract_text
             ("contract_" +:+ now_stamp rt +:+ ".txt") "text/plain") ;;
     show (DisabledButton "📥 Download as PDF (Coming Soon)")) s.
Proof.
  intros Hin Hd. unfold generate_body, load_global.
  rewrite (bool_decide_eq_true_2 _ (proj2 (list_elem_of_In _ _) Hin)).
  rewrite (run_get_contract_data_bind _ _ _ Hd), run_ret_bind.
  reflexivity.
Qed.

Lemma generate_contract_no_back rt globals (w : widgets) (s : session) :
  back_generate w = false ->
  generate_contract rt globals w s =
    after [Header "Generate Contract"]
      (try_except (generate_body rt globals)
         (fun e =>
            show (LogError ("Error generating contract: " +:+ Py.exc_str e)) ;;
            show (Error generic_error)) s).
Proof.
  intros Hb. unfold generate_contract. rewrite Hb.
  rewrite run_show_bind. cbn [when]. rewrite run_ret_bind. reflexivity.
Qed.

(** With [client] bound and a response whose first choice carries a text,
    the generate page shows that text stripped of surrounding whitespace,
    offers the same text for download as [contract_<timestamp>.txt] of type
    [text/plain], shows the disabled PDF button, and leaves the session
    state as it was.  The request carries the model [gpt-4], the system
    message, the prompt built from [contract_data] as the user message, at
    most 2000 tokens and the temperature 0.7. *)
Theorem generate_contract_shows_contract rt globals (w : widgets)
    (s : session) (d : gmap string Py.value) (text : string)
    (others : list (option string)) :
  In "client" globals ->
  back_generate w = false ->
  contract_data s = Some d ->
  completions_create rt
    {| model := "gpt-4";
       messages := [ ("system", system_message); ("user", build_prompt d) ];
       max_tokens := 2000;
       temperature := 0x1.6666666666666p-1%float |} =
    Py.Ok (Some text :: others) ->
  generate_contract rt globals w s =
    Result (Ret tt) s
      [ Header "Generate Contract";
        Markdown "### Generated Contract";
        TextArea "Contract Content" (strip text);
        DownloadButton "📥 Download as TXT" (strip text)
          ("contract_" +:+ now_stamp rt +:+ ".txt") "text/plain";
        DisabledButton "📥 Download as PDF (Coming Soon)" ].
Proof.
  intros Hin Hb Hd Hresp. fold (request_of (build_prompt d)) in Hresp.
  rewrite (generate_contract_no_back _ _ _ _ Hb). unfold try_except.
  rewrite (generate_body_request rt globals s d Hin Hd), Hresp.
  cbn [call first_content]. rewrite !run_ret_bind. reflexivity.
Qed.

(** [strip] removes white space by code point: a text that ends in an
    accented letter is kept whole, and a no-break space (U+00A0) or an
    ideographic space (U+3000) around a text is removed like a blank. *)
Lemma strip_by_code_point :
  let nbsp := String (ascii_of_nat 194) (String (ascii_of_nat 160) "") in
  let wide := String (ascii_of_nat 227)
                (String (ascii_of_nat 128) (String (ascii_of_nat 128) "")) in
  strip "Voilà" = "Voilà" /\
  strip (nbsp +:+ " Voilà, signé" +:+ Py.nl +:+ wide) = "Voilà, signé" /\
  strip "   " = "".
Proof. vm_compute. repeat split. Qed.

(** A response without a choice, or whose first choice has no text, ends
    in the [except] branch like any other failure: the page shows the
    generic error and nothing of the contract. *)
Theorem malformed_response_is_caught rt globals (w : widgets) (s : session)
    (d : gmap string Py.value) (choices : list (option string)) :
  In "client" globals ->
  back_generate w = false ->
  contract_data s = Some d ->
  completions_create rt (request_of (build_prompt d)) = Py.Ok choices ->
  choices = [] \/ (exists others, choices = None :: others) ->
  generate_contract rt globals w s =
    Result (Ret tt) s
      [ Header "Generate Contract";
        LogError ("Error generating contract: " +:+
                  match choices with
                  | [] => "list index out of range"
                  | _ => "'NoneType' object has no attribute 'strip'"
                  end);
        Error generic_error ].
Proof.
  intros Hin Hb Hd Hresp Hbad.
  rewrite (generate_contract_no_back _ _ _ _ Hb). unfold try_except.
  rewrite (generate_body_request rt globals s d Hin Hd), Hresp.
  cbn [call]. rewrite run_ret_bind.
  destruct Hbad as [->|(others & ->)]; reflexivity.
Qed.

(** ** [main]: the breadcrumb and the routing *)

(** The chain of tests that ends [main]. *)
Definition route (rt : Runtime) (globals : list string) (w : widgets)
    (current : string) : M unit :=
  if String.eqb current "home" then home w
  else if String.eqb current "upload" then upload_documents rt w
  else if String.eqb current "form" then application_form w
  else if String.eqb current "generate" then generate_contract rt globals w
  else ret tt.

Lemma run_unit_bind {A B} (m : M A) (k : A -> M B) (s : session) (a : A) :
  m s = Result (Ret a) s [] -> bind m k s = k a s.
Proof.
  intros H. unfold bind. rewrite H. cbn. destruct (k a s); reflexivity.
Qed.

Lemma after_after {A} (o1 o2 : list ui_event) (r : result A) :
  after o1 (after o2 r) = after (o1 ++ o2) r.
Proof. unfold after. cbn. now rewrite app_assoc. Qed.

Lemma main_initialized rt globals (w : widgets) (x : string)
    (d : gmap string Py.value) (v : Py.value) :
  let s := Session (Some x) (Some d) (Some v) in
  main rt globals w s =
    match getitem steps x with
    | Py.Ok label =>
        after [ SidebarMarkdown "### Navigation";
                SidebarText ("Current Step: " +:+ label) ]
          (route rt globals w x s)
    | Py.Err e => Result (Raise e) s [SidebarMarkdown "### Navigation"]
    end.
Proof.
  intros s. unfold main.
  rewrite (run_unit_bind init _ s tt (init_initialized x d v)).
  rewrite run_show_bind.
  rewrite (run_unit_bind get_step _ s x eq_refl).
  destruct (getitem steps x) as [label|e]; cbn [call].
  - rewrite run_ret_bind, run_show_bind.
    rewrite (run_unit_bind get_step _ s x eq_refl).
    rewrite after_after. reflexivity.
  - reflexivity.
Qed.

(** Every run from a session in which the three keys exist and [step] is
    one of the four names shows the breadcrumb of the step the run started
    in, and then exactly what the page of that step does: the home page for
    ['home'], the upload page for ['upload'], the form for ['form'], the
    generate page for ['generate'].  The breadcrumb is not updated when the
    page changes [step]. *)
Theorem main_shows_breadcrumb_then_page rt globals (w : widgets)
    (x label : string) (d : gmap string Py.value) (v : Py.value) :
  In (x, label) steps ->
  let s := Session (Some x) (Some d) (Some v) in
  let page :=
    if String.eqb x "home" then home w
    else if String.eqb x "upload" then upload_documents rt w
    else if String.eqb x "form" then application_form w
    else generate_contract rt globals w in
  ended (main rt globals w s) = ended (page s) /\
  state (main rt globals w s) = state (page s) /\
  shown (main rt globals w s) =
    [ SidebarMarkdown "### Navigation";
      SidebarText ("Current Step: " +:+ label) ] ++ shown (page s).
Proof.
  intros Hin s page. subst s page. rewrite main_initialized.
  cbn in Hin.
  destruct Hin as [H|[H|[H|[H|[]]]]]; inversion H; subst x label;
    repeat split.
Qed.

(** A [step] that is none of the four names stops the run at the
    breadcrumb: the lookup of its label raises a [KeyError], no page is
    rendered and the session state is left as it was. *)
Theorem main_unknown_step_raises rt globals (w : widgets) (x : string)
    (d : gmap string Py.value) (v : Py.value) :
  ~ In x step_names ->
  let s := Session (Some x) (Some d) (Some v) in
  exists e,
    main rt globals w s =
      Result (Raise e) s [SidebarMarkdown "### Navigation"] /\
    Py.exc_class e = "KeyError" /\
    Py.exc_is_exception e = true.
Proof.
  intros Hx s. subst s. rewrite main_initialized.
  rewrite getitem_no_key.
  - eexists. split; [reflexivity|]. split; reflexivity.
  - cbn. cbn in Hx.
    destruct (String.eqb_spec x "home");
      [exfalso; apply Hx; subst x; tauto|].
    destruct (String.eqb_spec x "upload");
      [exfalso; apply Hx; subst x; tauto|].
    destruct (String.eqb_spec x "form");
      [exfalso; apply Hx; subst x; tauto|].
    destruct (String.eqb_spec x "generate");
      [exfalso; apply Hx; subst x; tauto|].
    reflexivity.
Qed.

(** ** No run ends in an exception *)

(** A session between two runs, once the script has run: the three keys
    exist, [step] is one of the four names, and [processing_status] is
    still the [None] that [__init__] gave it. *)
Definition ready (s : session) : Prop :=
  exists x d,
    s = Session (Some x) (Some d) (Some Py.VNone) /\ In x step_names.

(** From a ready session the computation leaves a ready session, and it
    lets no instance of [Exception] escape. *)
Definition safe {A} (m : M A) : Prop :=
  forall s, ready s ->
    ready (state (m s)) /\
    forall e, ended (m s) = Raise e -> Py.exc_is_exception e = false.

Lemma safe_reads_only {A} (m : M A) :
  reads_only m ->
  (forall s, ready s ->
     forall e, ended (m s) = Raise e -> Py.exc_is_exception e = false) ->
  safe m.
Proof. intros Hr Hn s Hs. split; [now rewrite Hr | now apply Hn]. Qed.

Lemma safe_ret {A} (a : A) : safe (ret a).
Proof. intros s Hs. split; [exact Hs | discriminate]. Qed.

Lemma safe_show (ev : ui_event) : safe (show ev).
Proof. intros s Hs. split; [exact Hs | discriminate]. Qed.

Lemma safe_rerun {A} : safe (@st_rerun A).
Proof. intros s Hs. split; [exact Hs | discriminate]. Qed.

Lemma safe_bind {A B} (m : M A) (k : A -> M B) :
  safe m -> (forall a, safe (k a)) -> safe (bind m k).
Proof.
  intros Hm Hk s Hs. unfold bind. destruct (Hm s Hs) as [Hst Hne].
  destruct (m s) as [[a|e|] s' out]; cbn in *.
  - apply Hk. exact Hst.
  - split; [exact Hst|]. intros e' H. inversion H; subst e'.
    now apply Hne.
  - split; [exact Hst | discriminate].
Qed.

Lemma safe_try_except {A} (body : M A) (handler : Py.exc -> M A) :
  reads_only body -> (forall e, safe (handler e)) ->
  safe (try_except body handler).
Proof.
  intros Hb Hh s Hs. unfold try_except. specialize (Hb s).
  destruct (body s) as [[a|e|] s' out]; cbn in *; subst s'.
  - split; [exact Hs | discriminate].
  - destruct (Py.exc_is_exception e) eqn:Hx.
    + apply Hh. exact Hs.
    + split; [exact Hs|]. cbn. intros e' H. inversion H; subst e'. exact Hx.
  - split; [exact Hs | discriminate].
Qed.

Lemma safe_when (b : bool) (m : M unit) : safe m -> safe (when b m).
Proof. intros H. destruct b; [exact H | apply safe_ret]. Qed.

Lemma safe_if {A} (b : bool) (m1 m2 : M A) :
  safe m1 -> safe m2 -> safe (if b then m1 else m2).
Proof. destruct b; trivial. Qed.

Lemma safe_set_step (x : string) : In x step_names -> safe (set_step x).
Proof.
  intros Hx s (x0 & d & -> & _). split; [|discriminate].
  exists x, d. split; [reflexivity | exact Hx].
Qed.

Lemma safe_set_contract_data d : safe (set_contract_data d).
Proof.
  intros s (x & d0 & -> & Hx). split; [|discriminate].
  exists x, d. split; [reflexivity | exact Hx].
Qed.

Lemma safe_get_contract_data : safe get_contract_data.
Proof. intros s (x & d & -> & Hx). split; [now exists x, d | discriminate]. Qed.

Lemma safe_contract_data_get key default :
  safe (contract_data_get key default).
Proof.
  unfold contract_data_get. apply safe_bind;
    [apply safe_get_contract_data | intros; apply safe_ret].
Qed.

Lemma safe_process_uploaded_file rt f : safe (process_uploaded_file rt f).
Proof.
  apply safe_reads_only; [intros s; apply process_uploaded_file_state|].
  intros s _ e.
  destruct (process_uploaded_file_cases rt f s)
    as [(text & -> & _)|[[-> _]|(e' & -> & Hx & _)]]; try discriminate.
  intros H. inversion H; subst e'. exact Hx.
Qed.

Lemma map_res_labels_ok (data : list (string * Py.value)) :
  exists labels,
    map_res (getitem required_fields) (missing_fields data) = Py.Ok labels.
Proof.
  pose proof (missing_fields_required data) as H.
  induction H as [|k ks Hk _ IH]; [exists []; reflexivity|].
  destruct IH as (labels & Hl). destruct (getitem_has_key _ _ Hk) as [v Hv].
  exists (v :: labels). cbn [map_res]. now rewrite Hv, Hl.
Qed.

Create HintDb safe.
#[local] Hint Resolve safe_ret safe_show safe_rerun safe_bind safe_when
  safe_if safe_set_step safe_set_contract_data safe_get_contract_data
  safe_contract_data_get safe_process_uploaded_file : safe.
#[local] Hint Extern 1 (In _ step_names) => cbn; tauto : safe.

Lemma safe_home (w : widgets) : safe (home w).
Proof. unfold home. auto 10 with safe. Qed.

Lemma safe_upload_documents rt (w : widgets) : safe (upload_documents rt w).
Proof.
  unfold upload_documents.
  repeat (apply safe_bind; [auto 10 with safe | intros]).
  destruct (file_uploader w); [|auto with safe].
  apply safe_bind; [auto with safe|]. intros [text|]; auto 12 with safe.
Qed.

Lemma safe_application_form (w : widgets) : safe (application_form w).
Proof.
  unfold application_form.
  repeat (apply safe_bind; [auto 10 with safe | intros]).
  apply safe_when. cbn zeta. apply safe_bind.
  - destruct (map_res_labels_ok (form_data w)) as [labels Hl].
    destruct (missing_fields (form_data w)); [auto with safe|].
    rewrite Hl. cbn [call]. auto 10 with safe.
  - intros valid. auto 12 with safe.
Qed.

Lemma safe_generate_contract rt globals (w : widgets) :
  safe (generate_contract rt globals w).
Proof.
  unfold generate_contract.
  repeat (apply safe_bind; [auto 10 with safe | intros]).
  apply safe_try_except; [|auto 10 with safe].
  intros s. apply generate_body_state.
Qed.

Lemma safe_route rt globals (w : widgets) (x : string) :
  safe (route rt globals w x).
Proof.
  unfold route.
  repeat (apply safe_if;
            [first [apply safe_home | apply safe_upload_documents
                   | apply safe_application_form
                   | apply safe_generate_contract]|]).
  apply safe_ret.
Qed.

Lemma init_ready (s : session) :
  s = fresh_session \/ ready s -> ready (state (init s)).
Proof.
  intros [->|(x & d & -> & Hx)].
  - exists "home", ∅. split; [reflexivity | cbn; tauto].
  - exists x, d. split; [reflexivity | exact Hx].
Qed.

Lemma main_safe rt globals (w : widgets) (s : session) :
  s = fresh_session \/ ready s ->
  ready (state (main rt globals w s)) /\
  forall e, ended (main rt globals w s) = Raise e ->
            Py.exc_is_exception e = false.
Proof.
  intros H. apply init_ready in H.
  assert (Hmain : main rt globals w s = main rt globals w (state (init s))).
  { unfold main, bind at 1 3. cbn [init ended state shown].
    destruct s as [[x|] [d|] [v|]]; reflexivity. }
  rewrite Hmain. destruct H as (x & d & -> & Hx).
  rewrite main_initialized.
  assert (Hl : exists label, getitem steps x = Py.Ok label).
  { apply getitem_has_key. cbn in Hx |- *.
    destruct Hx as [<-|[<-|[<-|[<-|[]]]]]; reflexivity. }
  destruct Hl as [label ->]. unfold after. cbn [ended state].
  apply safe_route. exists x, d. split; [reflexivity | exact Hx].
Qed.

Lemma reachable_ready (s : session) :
  reachable s -> s = fresh_session \/ ready s.
Proof.
  induction 1 as [|rt w s _ IH]; [now left|].
  right. exact (proj1 (main_safe rt module_globals w s IH)).
Qed.

(** No failure of the kind the script handles is fatal.  From every
    session state that runs of the script can reach, whatever the widgets
    return and whatever the libraries do, a run lets no instance of
    [Exception] escape: an exception that ends a run is not one (it can
    only be a [KeyboardInterrupt] or the like raised inside a library).
    However the run ends, it leaves the three keys present, [step] one of
    the four names, and [processing_status] the [None] that [__init__]
    gave it: nothing ever writes it. *)
Theorem no_run_ends_in_exception rt (w : widgets) (s : session) :
  reachable s ->
  (forall e, ended (app rt w s) = Raise e ->
             Py.exc_is_exception e = false) /\
  exists x d,
    state (app rt w s) = Session (Some x) (Some d) (Some Py.VNone) /\
    In x step_names.
Proof.
  intros H. apply reachable_ready in H.
  destruct (main_safe rt module_globals w s H) as [Hr Hn].
  split; [exact Hn | exact Hr].
Qed.

(** ** One rerun at most *)

(** Computations that never ask for a rerun. *)
Definition never_reruns {A} (m : M A) : Prop :=
  forall s, ended (m s) <> Rerun.

Lemma never_reruns_ret {A} (a : A) : never_reruns (ret a).
Proof. intros s. discriminate. Qed.

Lemma never_reruns_raise {A} (e : Py.exc) : never_reruns (@raise A e).
Proof. intros s. discriminate. Qed.

Lemma never_reruns_show (ev : ui_event) : never_reruns (show ev).
Proof. intros s. discriminate. Qed.

Lemma never_reruns_call {A} (r : Py.res A) : never_reruns (call r).
Proof. intros s. destruct r; discriminate. Qed.

Lemma never_reruns_set_step x : never_reruns (set_step x).
Proof. intros s. discriminate. Qed.

Lemma never_reruns_set_contract_data d : never_reruns (set_contract_data d).
Proof. intros s. discriminate. Qed.

Lemma never_reruns_get_step : never_reruns get_step.
Proof. intros s. unfold get_step. destruct (step s); discriminate. Qed.

Lemma never_reruns_get_contract_data : never_reruns get_contract_data.
Proof.
  intros s. unfold get_contract_data. destruct (contract_data s); discriminate.
Qed.

Lemma never_reruns_init : never_reruns init.
Proof. intros s. discriminate. Qed.

Lemma never_reruns_bind {A B} (m : M A) (k : A -> M B) :
  never_reruns m -> (forall a, never_reruns (k a)) -> never_reruns (bind m k).
Proof.
  intros Hm Hk s. unfold bind. specialize (Hm s).
  destruct (m s) as [[a|e|] s' out]; cbn in *;
    [apply Hk | discriminate | congruence].
Qed.

Lemma never_reruns_try_except {A} (body : M A) (handler : Py.exc -> M A) :
  never_reruns body -> (forall e, never_reruns (handler e)) ->
  never_reruns (try_except body handler).
Proof.
  intros Hb Hh s. unfold try_except. specialize (Hb s).
  destruct (body s) as [[a|e|] s' out]; cbn in *;
    [discriminate | | congruence].
  destruct (Py.exc_is_exception e); [apply Hh | discriminate].
Qed.

Lemma never_reruns_if {A} (b : bool) (m1 m2 : M A) :
  never_reruns m1 -> never_reruns m2 -> never_reruns (if b then m1 else m2).
Proof. destruct b; trivial. Qed.

Lemma never_reruns_when (b : bool) (m : M unit) :
  never_reruns m -> never_reruns (when b m).
Proof. intros H. destruct b; [exact H | apply never_reruns_ret]. Qed.

Lemma never_reruns_when_false (m : M unit) : never_reruns (when false m).
Proof. apply never_reruns_ret. Qed.

Create HintDb never_reruns.
#[local] Hint Resolve never_reruns_ret never_reruns_raise never_reruns_show
  never_reruns_call never_reruns_set_step never_reruns_set_contract_data
  never_reruns_get_step never_reruns_get_contract_data never_reruns_init
  never_reruns_bind never_reruns_try_except never_reruns_if
  never_reruns_when_false never_reruns_when : never_reruns.

Lemma never_reruns_process_uploaded_file rt f :
  never_reruns (process_uploaded_file rt f).
Proof.
  unfold process_uploaded_file, extract_text_from_pdf, extract_text_from_docx.
  cbn zeta. auto 12 with never_reruns.
Qed.

Lemma never_reruns_generate_body rt globals :
  never_reruns (generate_body rt globals).
Proof.
  unfold generate_body, load_global. cbn zeta. auto 20 with never_reruns.
Qed.

Lemma never_reruns_home (w : widgets) : never_reruns (home w).
Proof. unfold home. auto 10 with never_reruns. Qed.

Lemma never_reruns_upload_no_click rt (w : widgets) :
  never_reruns (upload_documents rt (no_click w)).
Proof.
  pose proof never_reruns_process_uploaded_file.
  unfold upload_documents. cbn [no_click back_upload continue_btn file_uploader].
  repeat (apply never_reruns_bind; [auto 10 with never_reruns | intros]).
  destruct (file_uploader w); [|auto with never_reruns].
  apply never_reruns_bind; [auto with never_reruns|].
  intros [text|]; auto 12 with never_reruns.
Qed.

Lemma never_reruns_form_no_click (w : widgets) :
  never_reruns (application_form (no_click w)).
Proof.
  unfold application_form, contract_data_get.
  cbn [no_click back_form form_submit_button].
  auto 20 with never_reruns.
Qed.

Lemma never_reruns_generate_no_click rt globals (w : widgets) :
  never_reruns (generate_contract rt globals (no_click w)).
Proof.
  pose proof never_reruns_generate_body.
  unfold generate_contract. cbn [no_click back_generate].
  auto 12 with never_reruns.
Qed.

Lemma never_reruns_main_no_click rt globals (w : widgets) :
  never_reruns (main rt globals (no_click w)).
Proof.
  pose proof never_reruns_home. pose proof never_reruns_upload_no_click.
  pose proof never_reruns_form_no_click.
  pose proof never_reruns_generate_no_click.
  unfold main. auto 20 with never_reruns.
Qed.

(** A user action costs one rerun at most: a run in which no button is
    clicked never asks for a rerun, so the loop of runs that a click starts
    ends after the run of the click or after the one that follows it.  This
    holds from every session state, for every widget state and whatever
    the libraries do. *)
Theorem one_rerun_at_most rt (w : widgets) (s : session) :
  ended (app rt (no_click w) s) <> Rerun /\
  exists r,
    interact 2 rt w s = Some r /\
    ended r <> Rerun /\
    (ended (app rt w s) <> Rerun -> r = app rt w s) /\
    (ended (app rt w s) = Rerun ->
     r = app rt (no_click w) (state (app rt w s))).
Proof.
  split; [exact (never_reruns_main_no_click rt module_globals w s)|].
  cbn [interact].
  destruct (ended (app rt w s)) as [[]|e|] eqn:E.
  - exists (app rt w s). rewrite E.
    repeat split; [discriminate | intros H; discriminate H].
  - exists (app rt w s). rewrite E.
    repeat split; [discriminate | intros H; discriminate H].
  - pose proof (never_reruns_main_no_click rt module_globals w
                  (state (app rt w s))) as Hn.
    change (ended (app rt (no_click w) (state (app rt w s))) <> Rerun) in Hn.
    exists (app rt (no_click w) (state (app rt w s))).
    destruct (ended (app rt (no_click w) (state (app rt w s)))) eqn:E2;
      [| |congruence];
      (split; [reflexivity|]); (split; [discriminate|]);
      (split; [congruence | reflexivity]).
Qed.

(** ** From the form to the generate page *)

(** A valid submission, followed to the end of the user action.  From the
    form page, with the submit button clicked and the five required values
    truthy, the run stores the form and reruns; the run that follows
    renders the generate page, which ends in the generic error because
    [client] is unbound.  The action ends there, with [step] at
    ['generate'] and the submitted values in [contract_data]. *)
Theorem valid_submission_ends_on_error_page rt (w : widgets)
    (d : gmap string Py.value) (v : Py.value) :
  back_form w = false ->
  form_submit_button w = true ->
  Py.truthy (Py.VStr (party1 w)) = true ->
  Py.truthy (Py.VStr (party2 w)) = true ->
  Py.truthy (Py.VStr (commodity w)) = true ->
  Py.truthy (Py.VInt (quantity w)) = true ->
  Py.truthy (Py.VFloat (price w)) = true ->
  interact 2 rt w (Session (Some "form") (Some d) (Some v)) =
    Some (Result (Ret tt)
            (Session (Some "generate")
               (Some (dict_update d (form_data w))) (Some v))
            [ SidebarMarkdown "### Navigation";
              SidebarText "Current Step: ⚙️ Generate";
              Header "Generate Contract";
              LogError
                "Error generating contract: name 'client' is not defined";
              Error generic_error ]).
Proof.
  intros Hb Hs H1 H2 H3 H4 H5.
  assert (Hm : missing_fields (form_data w) = []).
  { rewrite missing_fields_form_data. unfold if_falsy.
    rewrite H1, H2, H3, H4, H5. reflexivity. }
  set (s := Session (Some "form") (Some d) (Some v)).
  set (s' := Session (Some "generate")
               (Some (dict_update d (form_data w))) (Some v)).
  assert (Hrun1 : app rt w s =
    Result Rerun s'
      [ SidebarMarkdown "### Navigation";
        SidebarText "Current Step: 📝 Form";
        Header "Contract Application Form";
        Subheader "1. Parties Involved";
        Subheader "2. Contract Details";
        Subheader "3. Additional Terms" ]).
  { unfold app, s. rewrite main_initialized.
    cbn [getitem steps String.eqb Ascii.eqb Bool.eqb]. unfold route.
    cbn [String.eqb Ascii.eqb Bool.eqb].
    rewrite (application_form_accepts w
               (Session (Some "form") (Some d) (Some v)) d eq_refl Hb Hs Hm).
    reflexivity. }
  assert (Hrun2 : app rt (no_click w) s' =
    Result (Ret tt) s'
      [ SidebarMarkdown "### Navigation";
        SidebarText "Current Step: ⚙️ Generate";
        Header "Generate Contract";
        LogError "Error generating contract: name 'client' is not defined";
        Error generic_error ]).
  { unfold app, s'. rewrite main_initialized.
    cbn [getitem steps String.eqb Ascii.eqb Bool.eqb]. unfold route.
    cbn [String.eqb Ascii.eqb Bool.eqb].
    destruct (generate_body_raises rt
                (Session (Some "generate")
                   (Some (dict_update d (form_data w))) (Some v)))
      as (e & Hbody & Hx & Hname).
    rewrite (Hname ltac:(discriminate)) in Hbody.
    rewrite (generate_contract_caught rt module_globals (no_click w)
               (Session (Some "generate")
                  (Some (dict_update d (form_data w))) (Some v)) _
               eq_refl (f_equal ended Hbody) eq_refl).
    rewrite Hbody. reflexivity. }
  cbn [interact]. rewrite Hrun1. cbn [ended state]. rewrite Hrun2.
  reflexivity.
Qed.

(** ** The prompt, for any contract data *)

Lemma substring_of_refl (s : string) : substring_of s s.
Proof. exists "", "". now rewrite append_nil_r. Qed.

Lemma substring_of_app_l (x a b : string) :
  substring_of x b -> substring_of x (a +:+ b).
Proof.
  intros (pre & post & ->). exists (a +:+ pre), post.
  now rewrite append_assoc.
Qed.

Lemma substring_of_app_r (x a b : string) :
  substring_of x a -> substring_of x (a +:+ b).
Proof.
  intros (pre & post & ->). exists pre, (post +:+ b).
  now rewrite !append_assoc.
Qed.

Lemma substring_of_join (sep x : string) (l : list string) :
  In x l -> substring_of x (Py.join sep l).
Proof.
  unfold Py.join. induction l as [|y rest IH]; [intros []|].
  intros [->|Hin].
  - destruct rest; [apply substring_of_refl|].
    rewrite concat_cons_cons. apply substring_of_app_r, substring_of_refl.
  - destruct rest as [|z rest]; [destruct Hin|].
    rewrite concat_cons_cons.
    apply substring_of_app_l, substring_of_app_l, IH, Hin.
Qed.

Lemma prompt_has_line (d : gmap string Py.value) (line : string) :
  In line (prompt_lines d) -> substring_of line (build_prompt d).
Proof.
  intros Hin. unfold build_prompt. apply substring_of_app_l.
  assert (H : substring_of (indent +:+ line)
                (Py.join Py.nl
                   (map (fun l => indent +:+ l) (prompt_lines d)))).
  { apply substring_of_join, in_map_iff. exists line. now split. }
  destruct H as (pre & post & ->).
  exists (pre +:+ indent), post. now rewrite !append_assoc.
Qed.

(** The prompt shows every field as [str] gives it, whatever
    [contract_data] holds: each of the six labelled lines is in the prompt
    with the value of its key, and a key that is absent shows as [None]. *)
Theorem prompt_shows_every_field (d : gmap string Py.value) :
  let shown_as key :=
    Py.str (match d !! key with Some v => v | None => Py.VNone end) in
  substring_of ("- Party 1: " +:+ shown_as "party1") (build_prompt d) /\
  substring_of ("- Party 2: " +:+ shown_as "party2") (build_prompt d) /\
  substring_of ("- Commodity: " +:+ shown_as "commodity") (build_prompt d) /\
  substring_of ("- Quantity: " +:+ shown_as "quantity") (build_prompt d) /\
  substring_of ("- Price: " +:+ shown_as "price" +:+ " " +:+
                shown_as "currency" +:+ " per unit") (build_prompt d) /\
  substring_of ("- Template Style: " +:+ shown_as "template")
    (build_prompt d).
Proof.
  intros shown_as. subst shown_as. cbn beta.
  repeat split; apply prompt_has_line; unfold prompt_lines, dget;
    cbn [In]; tauto.
Qed.

(** The prompt reads seven keys only: writing any other key of
    [contract_data] (the extracted text of an upload, for one) leaves the
    prompt as it was. *)
Theorem prompt_ignores_other_keys (d : gmap string Py.value) (key : string)
    (v : Py.value) :
  ~ In key [ "party1"; "party2"; "commodity"; "quantity"; "price";
             "currency"; "template" ] ->
  build_prompt (<[key := v]> d) = build_prompt d.
Proof.
  intros Hk. cbn [In] in Hk.
  unfold build_prompt, prompt_lines, dget.
  rewrite !lookup_insert_ne by (intros ->; tauto). reflexivity.
Qed.

Lemma prompt_ignores_other_keys_witness :
  build_prompt (<["extracted_text" := Py.VStr "hello"]> Samples.acme_data) =
    build_prompt Samples.acme_data.
Proof.
  apply (prompt_ignores_other_keys Samples.acme_data "extracted_text"
           (Py.VStr "hello")).
  cbn [In]. intros [H|[H|[H|[H|[H|[H|[H|[]]]]]]]]; discriminate H.
Defined.

(** ** The first run of a session *)

(** The first run of a fresh session creates the three keys and renders
    the home page under the home breadcrumb; a click on one of its two
    buttons is already taken into account in [step]. *)
Theorem first_run_shows_home rt (w : widgets) :
  app rt w fresh_session =
    Result (Ret tt)
      (Session
         (Some (if form_btn w then "form"
                else if upload_btn w then "upload" else "home"))
         (Some ∅) (Some Py.VNone))
      [ SidebarMarkdown "### Navigation";
        SidebarText "Current Step: 🏠 Home";
        Title "Contract Platform";
        Write
          "Welcome to the Contract Platform. Choose an option to get started." ].
Proof.
  unfold app.
  assert (H : main rt module_globals w fresh_session =
              main rt module_globals w
                (Session (Some "home") (Some ∅) (Some Py.VNone))).
  { reflexivity. }
  rewrite H, main_initialized.
  cbn [getitem steps String.eqb Ascii.eqb Bool.eqb]. unfold route.
  cbn [String.eqb Ascii.eqb Bool.eqb]. unfold home.
  destruct (upload_btn w), (form_btn w); reflexivity.
Qed.

(** ** Runs on concrete inputs *)

Module Runs.

Definition widgets_with (file : option UploadedFile) (continue submit : bool)
  : widgets :=
  {| upload_btn := false; form_btn := false; back_upload := false;
     file_uploader := file; continue_btn := continue;
     back_form := false;
     party1 := "Acme"; party2 := "Globex"; commodity := "Wheat";
     quantity := 100; price := 5%float;
     currency := "USD"; template := "London";
     form_submit_button := submit; back_generate := false |}.

Definition pdf_file : UploadedFile :=
  {| file_bytes := []; file_mime := "application/pdf" |}.
Definition doc_file : UploadedFile :=
  {| file_bytes := []; file_mime := "application/msword" |}.
Definition txt_file : UploadedFile :=
  {| file_bytes := []; file_mime := "text/plain" |}.
Definition png_file : UploadedFile :=
  {| file_bytes := []; file_mime := "image/png" |}.

(** Libraries that reject every document; the second page of a PDF fails. *)
Definition rejecting : Runtime :=
  {| pdf_pages := fun _ =>
       Py.Ok [Py.Ok "a"; Py.Err (Py.Exc "PdfReadError" "bad page")];
     docx_paragraphs := fun _ =>
       Py.Err (Py.Exc "BadZipFile" "File is not a zip file");
     decode_utf8 := fun _ =>
       Py.Err (Py.Exc "UnicodeDecodeError" "invalid start byte");
     completions_create := fun _ => Py.Ok [];
     now_stamp := "20240101_120000" |}.

(** A completion service that answers. *)
Definition answering : Runtime :=
  {| pdf_pages := fun _ => Py.Ok [Py.Ok "a"];
     docx_paragraphs := fun _ => Py.Ok ["p"; "q"];
     decode_utf8 := fun b => Py.Ok (string_of_list_byte b);
     completions_create := fun _ => Py.Ok [Some "  CONTRACT  "];
     now_stamp := "20240101_120000" |}.

Definition at_form : session :=
  Session (Some "form") (Some ∅) (Some Py.VNone).

(** The click on the upload button of the home page. *)
Definition click_upload : widgets :=
  {| upload_btn := true; form_btn := false; back_upload := false;
     file_uploader := None; continue_btn := false;
     back_form := false;
     party1 := ""; party2 := ""; commodity := "";
     quantity := 0; price := 0%float;
     currency := "USD"; template := "London";
     form_submit_button := false; back_generate := false |}.

End Runs.

Lemma unreadable_document_is_reported_witness :
  process_uploaded_file Runs.rejecting Runs.pdf_file fresh_session =
    Result (Ret None) fresh_session
      [ LogError "Error extracting PDF text: bad page";
        Error "Error processing file: Failed to process PDF file. Please ensure the file is not corrupted." ].
Proof.
  apply (proj1 (unreadable_document_is_reported Runs.rejecting Runs.pdf_file
                  fresh_session (Py.Exc "PdfReadError" "bad page") eq_refl)
           eq_refl).
  right. exists ["a"], []. reflexivity.
Defined.

(** An exception that is not an instance of [Exception] passes through
    both handlers of the extraction: nothing is logged or shown. *)
Lemma keyboard_interrupt_passes_process_uploaded_file :
  process_uploaded_file Samples.interrupted Runs.pdf_file fresh_session =
    Result (Raise Samples.keyboard_interrupt) fresh_session [].
Proof. reflexivity. Qed.

Lemma readable_document_is_extracted_witness :
  process_uploaded_file Samples.runtime Runs.doc_file fresh_session =
    Result (Ret (Some ("p" +:+ Py.nl +:+ "q"))) fresh_session [].
Proof.
  apply (proj1 (proj2 (readable_document_is_extracted Samples.runtime
                         Runs.doc_file fresh_session)) ["p"; "q"]).
  - cbn. tauto.
  - reflexivity.
Defined.

Lemma upload_without_text_changes_nothing_witness :
  upload_documents Samples.runtime
    (Runs.widgets_with (Some Runs.png_file) true false) Samples.at_upload =
    Result (Ret tt) Samples.at_upload
      [ Header "Upload Documents";
        Error "Error processing file: Unsupported file type: image/png" ].
Proof.
  exact (proj2 (upload_without_text_changes_nothing Samples.runtime
                  (Runs.widgets_with (Some Runs.png_file) true false)
                  Samples.at_upload eq_refl)
           Runs.png_file eq_refl eq_refl).
Defined.

Lemma upload_continue_goes_to_form_witness :
  let r := upload_documents Samples.runtime
             (Runs.widgets_with (Some Samples.hello_file) true false)
             Samples.at_upload in
  ended r = Rerun /\ step (state r) = Some "form".
Proof.
  exact (proj1 (upload_continue_goes_to_form Samples.runtime
                  (Runs.widgets_with (Some Samples.hello_file) true false)
                  Samples.at_upload ∅ Samples.hello_file "hello"
                  eq_refl eq_refl eq_refl eq_refl ltac:(discriminate))
           eq_refl).
Defined.

Lemma form_render_changes_nothing_witness :
  state (application_form (Runs.widgets_with None false false) Runs.at_form) =
    Runs.at_form.
Proof.
  rewrite (form_render_changes_nothing (Runs.widgets_with None false false)
             Runs.at_form ∅ eq_refl eq_refl eq_refl).
  reflexivity.
Defined.

Lemma generate_contract_shows_contract_witness :
  generate_contract Runs.answering ("client" :: module_globals)
    Samples.idle Samples.at_generate =
    Result (Ret tt) Samples.at_generate
      [ Header "Generate Contract";
        Markdown "### Generated Contract";
        TextArea "Contract Content" "CONTRACT";
        DownloadButton "📥 Download as TXT" "CONTRACT"
          "contract_20240101_120000.txt" "text/plain";
        DisabledButton "📥 Download as PDF (Coming Soon)" ].
Proof.
  exact (generate_contract_shows_contract Runs.answering
           ("client" :: module_globals) Samples.idle Samples.at_generate
           Samples.acme_data "  CONTRACT  " []
           (or_introl eq_refl) eq_refl eq_refl eq_refl).
Defined.

Lemma malformed_response_is_caught_witness :
  generate_contract Runs.rejecting ("client" :: module_globals)
    Samples.idle Samples.at_generate =
    Result (Ret tt) Samples.at_generate
      [ Header "Generate Contract";
        LogError "Error generating contract: list index out of range";
        Error generic_error ].
Proof.
  exact (malformed_response_is_caught Runs.rejecting
           ("client" :: module_globals) Samples.idle Samples.at_generate
           Samples.acme_data [] (or_introl eq_refl) eq_refl eq_refl eq_refl
           (or_introl eq_refl)).
Defined.

Lemma main_shows_breadcrumb_then_page_witness :
  shown (main Samples.runtime module_globals Samples.idle
           (Session (Some "upload") (Some ∅) (Some Py.VNone))) =
    [ SidebarMarkdown "### Navigation";
      SidebarText "Current Step: 📄 Upload";
      Header "Upload Documents" ].
Proof.
  exact (proj2 (proj2 (main_shows_breadcrumb_then_page Samples.runtime
                         module_globals Samples.idle "upload" "📄 Upload"
                         ∅ Py.VNone (or_intror (or_introl eq_refl))))).
Defined.

Lemma main_unknown_step_raises_witness :
  exists e,
    main Samples.runtime module_globals Samples.idle
      (Session (Some "done") (Some ∅) (Some Py.VNone)) =
      Result (Raise e) (Session (Some "done") (Some ∅) (Some Py.VNone))
        [SidebarMarkdown "### Navigation"] /\
    Py.exc_class e = "KeyError" /\
    Py.exc_is_exception e = true.
Proof.
  apply (main_unknown_step_raises Samples.runtime module_globals
           Samples.idle "done" ∅ Py.VNone).
  cbn. intros [H|[H|[H|[H|[]]]]]; discriminate H.
Defined.

(** After a click on the upload button, the upload of a PDF whose second
    page cannot be read: the run reports it and returns. *)
Lemma no_run_ends_in_exception_witness :
  let s1 := state (app Samples.runtime Runs.click_upload fresh_session) in
  let r := app Runs.rejecting
             (Runs.widgets_with (Some Runs.pdf_file) false false) s1 in
  (exists x d,
     state r = Session (Some x) (Some d) (Some Py.VNone) /\
     In x step_names) /\
  r = Result (Ret tt) (Session (Some "upload") (Some ∅) (Some Py.VNone))
        [ SidebarMarkdown "### Navigation";
          SidebarText "Current Step: 📄 Upload";
          Header "Upload Documents";
          LogError "Error extracting PDF text: bad page";
          Error "Error processing file: Failed to process PDF file. Please ensure the file is not corrupted." ].
Proof.
  intros s1 r. split.
  - exact (proj2 (no_run_ends_in_exception Runs.rejecting
                    (Runs.widgets_with (Some Runs.pdf_file) false false)
                    s1 (reach_run Samples.runtime Runs.click_upload
                          fresh_session reach_fresh))).
  - reflexivity.
Defined.

Lemma valid_submission_ends_on_error_page_witness :
  exists r,
    interact 2 Samples.runtime (Runs.widgets_with None false true)
      Runs.at_form = Some r /\
    step (state r) = Some "generate" /\
    last (shown r) = Some (Error generic_error).
Proof.
  eexists. split.
  - exact (valid_submission_ends_on_error_page Samples.runtime
             (Runs.widgets_with None false true) ∅ Py.VNone
             eq_refl eq_refl eq_refl eq_refl eq_refl eq_refl eq_refl).
  - split; reflexivity.
Defined.

Lemma upload_empty_text_not_stored_witness :
  state (upload_documents Samples.runtime
           (Runs.widgets_with (Some Runs.txt_file) true false)
           Samples.at_upload) = Samples.at_upload.
Proof.
  exact (proj1 (upload_empty_text_not_stored Samples.runtime
                  (Runs.widgets_with (Some Runs.txt_file) true false)
                  Samples.at_upload Runs.txt_file eq_refl eq_refl eq_refl)).
Defined.
